(** * Shallow embedding of the sunos moderation plugin (src/core).

    Strings are Rocq byte strings (UTF-8 literals keep the source's Chinese
    texts); Python's [time.time()] floats are modelled by integer seconds;
    the SQLite file behind [SunosDatabase] is an explicit value threaded
    through the calls. *)

From Stdlib Require Import String Ascii List ZArith Bool Lia.
Import ListNotations.
Open Scope string_scope.
Open Scope Z_scope.

(** ** Python's [str.strip()] on UTF-8 text *)
Module PyText.

(** The UTF-8 encodings of the code points [str.strip()] removes (those
    whose [isspace()] is true): U+0009..U+000D, U+001C..U+0020, U+0085,
    U+00A0, U+1680, U+2000..U+200A, U+2028, U+2029, U+202F, U+205F, U+3000. *)
Definition ws_encodings : list (list ascii) :=
  map (map ascii_of_nat)
    [[9]; [10]; [11]; [12]; [13]; [28]; [29]; [30]; [31]; [32];
     [194; 133]; [194; 160]; [225; 154; 128];
     [226; 128; 128]; [226; 128; 129]; [226; 128; 130]; [226; 128; 131];
     [226; 128; 132]; [226; 128; 133]; [226; 128; 134]; [226; 128; 135];
     [226; 128; 136]; [226; 128; 137]; [226; 128; 138];
     [226; 128; 168]; [226; 128; 169]; [226; 128; 175]; [226; 129; 159];
     [227; 128; 128]]%nat.

Fixpoint list_prefix (p l : list ascii) : bool :=
  match p, l with
  | [], _ => true
  | a :: p', b :: l' => Ascii.eqb a b && list_prefix p' l'
  | _ :: _, [] => false
  end.

(** Drops, from the front, encodings of [encs] while one is a prefix;
    every step drops at least one byte, so [length l] steps suffice. *)
Fixpoint lstrip_go (encs : list (list ascii)) (fuel : nat) (l : list ascii)
    : list ascii :=
  match fuel with
  | O => l
  | S f =>
      match find (fun e => list_prefix e l) encs with
      | Some e => lstrip_go encs f (skipn (length e) l)
      | None => l
      end
  end.

Definition lstrip_list (encs : list (list ascii)) (l : list ascii) : list ascii :=
  lstrip_go encs (length l) l.

(** Leading whitespace, then trailing whitespace (matched on the reversed
    bytes; in valid UTF-8 a complete encoding found at the end is the last
    code point). *)
Definition strip_list (l : list ascii) : list ascii :=
  rev (lstrip_list (map (@rev ascii) ws_encodings)
         (rev (lstrip_list ws_encodings l))).

Definition strip (s : string) : string :=
  string_of_list_ascii (strip_list (list_ascii_of_string s)).

Fixpoint drop_char (c : ascii) (l : list ascii) : list ascii :=
  match l with
  | x :: l' => if Ascii.eqb x c then drop_char c l' else l
  | [] => []
  end.

(** [str.rstrip(c)] for one character [c]. *)
Definition rstrip_char (c : ascii) (s : string) : string :=
  string_of_list_ascii (rev (drop_char c (rev (list_ascii_of_string s)))).

End PyText.

(** ** Python string helpers *)
Module Py.

Definition truthy (s : string) : bool :=
  match s with EmptyString => false | _ => true end.

(** Truthiness of [s.strip()]. *)
Definition strip_nonempty (s : string) : bool := truthy (PyText.strip s).

(** The code points of a UTF-8 string (the model's strings are the UTF-8
    encodings of Python [str] values); a byte that starts no well-formed
    sequence is read as the code point of its own value. *)
Definition byte (c : ascii) : Z := Z.of_nat (nat_of_ascii c).

Definition cont (c : ascii) : bool := (128 <=? byte c) && (byte c <? 192).

Fixpoint code_points (l : list ascii) : list Z :=
  match l with
  | [] => []
  | b0 :: l1 =>
      let n0 := byte b0 in
      if n0 <? 192 then n0 :: code_points l1
      else if n0 <? 224 then
        match l1 with
        | b1 :: l2 =>
            if cont b1 then (n0 - 192) * 64 + (byte b1 - 128) :: code_points l2
            else n0 :: code_points l1
        | [] => n0 :: code_points l1
        end
      else if n0 <? 240 then
        match l1 with
        | b1 :: b2 :: l3 =>
            if cont b1 && cont b2 then
              ((n0 - 224) * 64 + (byte b1 - 128)) * 64 + (byte b2 - 128) :: code_points l3
            else n0 :: code_points l1
        | _ => n0 :: code_points l1
        end
      else if n0 <? 248 then
        match l1 with
        | b1 :: b2 :: b3 :: l4 =>
            if cont b1 && cont b2 && cont b3 then
              (((n0 - 240) * 64 + (byte b1 - 128)) * 64 + (byte b2 - 128)) * 64
                + (byte b3 - 128) :: code_points l4
            else n0 :: code_points l1
        | _ => n0 :: code_points l1
        end
      else n0 :: code_points l1
  end.

(** The code points whose [str.isdigit()] is true (Numeric_Type Digit or
    Decimal, Unicode 14.0 as in Python 3.11), as ranges [(first, last)]. *)
Definition digit_ranges : list (Z * Z) :=
  [(48, 57); (178, 179); (185, 185); (1632, 1641); (1776, 1785); (1984,
   1993); (2406, 2415); (2534, 2543); (2662, 2671); (2790, 2799); (2918,
   2927); (3046, 3055); (3174, 3183); (3302, 3311); (3430, 3439); (3558,
   3567); (3664, 3673); (3792, 3801); (3872, 3881); (4160, 4169); (4240,
   4249); (4969, 4977); (6112, 6121); (6160, 6169); (6470, 6479); (6608,
   6618); (6784, 6793); (6800, 6809); (6992, 7001); (7088, 7097); (7232,
   7241); (7248, 7257); (8304, 8304); (8308, 8313); (8320, 8329); (9312,
   9320); (9332, 9340); (9352, 9360); (9450, 9450); (9461, 9469); (9471,
   9471); (10102, 10110); (10112, 10120); (10122, 10130); (42528, 42537);
   (43216, 43225); (43264, 43273); (43472, 43481); (43504, 43513); (43600,
   43609); (44016, 44025); (65296, 65305); (66720, 66729); (68160, 68163);
   (68912, 68921); (69216, 69224); (69714, 69722); (69734, 69743); (69872,
   69881); (69942, 69951); (70096, 70105); (70384, 70393); (70736, 70745);
   (70864, 70873); (71248, 71257); (71360, 71369); (71472, 71481); (71904,
   71913); (72016, 72025); (72784, 72793); (73040, 73049); (73120, 73129);
   (92768, 92777); (92864, 92873); (93008, 93017); (120782, 120831); (123200,
   123209); (123632, 123641); (125264, 125273); (127232, 127242); (130032,
   130041)].

Definition is_digit_cp (c : Z) : bool :=
  existsb (fun r => (fst r <=? c) && (c <=? snd r)) digit_ranges.

(** [str.isdigit]: non-empty and every code point a digit. *)
Definition isdigit (s : string) : bool :=
  match code_points (list_ascii_of_string s) with
  | [] => false
  | cps => forallb is_digit_cp cps
  end.

(** [len(s)] counts code points: UTF-8 bytes that are not continuation
    bytes (0x80..0xBF). *)
Fixpoint len (s : string) : nat :=
  match s with
  | EmptyString => 0
  | String c s' =>
      let n := nat_of_ascii c in
      if ((128 <=? n) && (n <=? 191))%nat then len s' else S (len s')
  end.

(** [s.split(sep)] for a non-empty [sep]: left to right, non-overlapping;
    [skip] counts the remaining characters of a separator just matched. *)
Fixpoint split_go (sep : string) (skip : nat) (s cur : string) : list string :=
  match s with
  | EmptyString => [cur]
  | String c s' =>
      match skip with
      | S k => split_go sep k s' cur
      | O =>
          if prefix sep s then cur :: split_go sep (String.length sep - 1) s' ""
          else split_go sep 0 s' (cur ++ String c "")
      end
  end.

Definition split (s sep : string) : list string := split_go sep 0 s "".

(** [s.replace(old, new)] for a non-empty [old]. *)
Fixpoint replace_go (old new : string) (skip : nat) (s : string) : string :=
  match s with
  | EmptyString => EmptyString
  | String c s' =>
      match skip with
      | S k => replace_go old new k s'
      | O =>
          if prefix old s then new ++ replace_go old new (String.length old - 1) s'
          else String c (replace_go old new 0 s')
      end
  end.

Definition replace (s old new : string) : string := replace_go old new 0 s.

(** The zero of each run of ten decimal digits (Numeric_Type Decimal,
    Unicode 14.0): the characters [int()] reads as digits. *)
Definition decimal_zeros : list Z :=
  [48; 1632; 1776; 1984; 2406; 2534; 2662; 2790; 2918; 3046; 3174; 3302;
   3430; 3558; 3664; 3792; 3872; 4160; 4240; 6112; 6160; 6470; 6608; 6784;
   6800; 6992; 7088; 7232; 7248; 42528; 43216; 43264; 43472; 43504; 43600;
   44016; 65296; 66720; 68912; 69734; 69872; 69942; 70096; 70384; 70736;
   70864; 71248; 71360; 71472; 71904; 72016; 72784; 73040; 73120; 92768;
   92864; 93008; 120782; 120792; 120802; 120812; 120822; 123200; 123632;
   125264; 130032].

Definition decimal_value (c : Z) : option Z :=
  match find (fun z => (z <=? c) && (c <=? z + 9)) decimal_zeros with
  | Some z => Some (c - z)
  | None => None
  end.

(** The whitespace code points from U+007F up (the [isspace()] ones). *)
Definition is_unicode_space (c : Z) : bool :=
  existsb (Z.eqb c) [133; 160; 5760; 8232; 8233; 8239; 8287; 12288]
  || ((8192 <=? c) && (c <=? 8202)).

(** [_PyUnicode_TransformDecimalAndSpaceToASCII], the first step of [int()]
    on a [str]: code points below 127 kept, other whitespace to a space,
    decimal digits to the ASCII digit, anything else to [?] (CPython cuts
    the text there; the parse fails at the [?] either way). *)
Definition to_ascii_char (c : Z) : Z :=
  if c <? 127 then c
  else if is_unicode_space c then 32
  else match decimal_value c with Some v => 48 + v | None => 63 end.

(** [Py_ISSPACE], the whitespace [PyLong_FromString] skips: \t..\r, space. *)
Definition c_isspace (c : Z) : bool := ((9 <=? c) && (c <=? 13)) || (c =? 32).

Fixpoint skip_space (l : list Z) : list Z :=
  match l with
  | c :: l' => if c_isspace c then skip_space l' else l
  | [] => []
  end.

(** [sys.get_int_max_str_digits()] at its default. *)
Definition max_str_digits : nat := 4300.

(** Base-10 digits with single underscores between digits; [n] counts the
    digits, which may not exceed [max_str_digits]. *)
Fixpoint digits_go (l : list Z) (acc : Z) (n : nat) (last_digit : bool) : option Z :=
  match l with
  | [] => if last_digit && (n <=? max_str_digits)%nat then Some acc else None
  | c :: l' =>
      if (48 <=? c) && (c <=? 57) then digits_go l' (acc * 10 + (c - 48)) (S n) true
      else if (c =? 95) && last_digit then digits_go l' acc n false
      else None
  end.

(** [int(s)]; [None] is the [ValueError]. *)
Definition int (s : string) : option Z :=
  let l := rev (skip_space (rev (skip_space
             (map to_ascii_char (code_points (list_ascii_of_string s)))))) in
  match l with
  | c :: rest =>
      if c =? 45 then option_map Z.opp (digits_go rest 0 0 false)
      else if c =? 43 then digits_go rest 0 0 false
      else digits_go l 0 0 false
  | [] => None
  end.

End Py.

(** ** database.py: the [blacklist] and [welcome_messages] tables *)
Module Store.

(** A row of [blacklist]; [group_id = None] is SQL NULL (global scope). *)
Record row := mk_row {
  id : Z;
  user_id : string;
  group_id : option string;
  reason : string;
  added_by : string;
  created_at : Z;
  updated_at : Z
}.

(** The database file: rows in rowid order, the welcome texts, the next
    AUTOINCREMENT id, the clock behind CURRENT_TIMESTAMP, and [down] when
    [sqlite3.connect] or a statement raises. *)
Record db := mk_db {
  rows : list row;
  welcomes : list (string * string);
  next_id : Z;
  clock : Z;
  down : bool
}.

Definition opt_eqb (a b : option string) : bool :=
  match a, b with
  | Some x, Some y => String.eqb x y
  | None, None => true
  | _, _ => false
  end.

(** [UNIQUE(user_id, group_id)] in SQLite: two rows clash only when both
    columns are equal and non-NULL, since NULL is never equal to NULL. *)
Definition unique_clash (r : row) (u : string) (g : option string) : bool :=
  String.eqb (user_id r) u &&
  match group_id r, g with
  | Some x, Some y => String.eqb x y
  | _, _ => false
  end.

(** [add_to_blacklist]: [INSERT OR REPLACE] deletes the clashing rows and
    appends the new one; created_at takes its DEFAULT. *)
Definition add_to_blacklist (d : db) (u by_ : string) (g : option string)
    (rsn : string) : db * bool :=
  if down d then (d, false)
  else
    let r := mk_row (next_id d) u g rsn by_ (clock d) (clock d) in
    (mk_db (filter (fun x => negb (unique_clash x u g)) (rows d) ++ [r])
           (welcomes d) (next_id d + 1) (clock d) (down d), true).

Definition global_match (u : string) (r : row) : bool :=
  String.eqb (user_id r) u && opt_eqb (group_id r) None.

Definition group_match (u g : string) (r : row) : bool :=
  String.eqb (user_id r) u && opt_eqb (group_id r) (Some g).

(** [is_in_blacklist]: the global row first, then the group row when
    [group_id] is truthy; any exception gives [False]. *)
Definition is_in_blacklist (d : db) (u : string) (g : option string) : bool :=
  if down d then false
  else if existsb (global_match u) (rows d) then true
  else match g with
       | Some g' => if Py.truthy g' then existsb (group_match u g') (rows d) else false
       | None => false
       end.

(** [get_user_blacklist_info]: the group row first when [group_id] is
    truthy, then the global row; [fetchone] gives the first in rowid order. *)
Definition get_user_blacklist_info (d : db) (u : string) (g : option string)
    : option row :=
  if down d then None
  else
    let from_group :=
      match g with
      | Some g' => if Py.truthy g' then find (group_match u g') (rows d) else None
      | None => None
      end in
    match from_group with
    | Some r => Some r
    | None => find (global_match u) (rows d)
    end.

(** [get_welcome_message]. *)
Definition get_welcome_message (d : db) (g : string) : option string :=
  if down d then None
  else option_map snd (find (fun p => String.eqb (fst p) g) (welcomes d)).

(** Rows stored for the pair [(u, g)] as the SQL text means it: equal user
    and equal group column, NULL matching NULL. *)
Definition rows_for (d : db) (u : string) (g : option string) : list row :=
  filter (fun r => String.eqb (user_id r) u && opt_eqb (group_id r) g) (rows d).

End Store.

(** ** services.py: [BlacklistService] *)
Module Service.
Import Store.

(** [ValidationUtils.validate_input_length]. *)
Definition validate_input_length (text : string) (max_length : nat) : bool :=
  Py.strip_nonempty text && (Py.len text <=? max_length)%nat.

(** [add_user_to_blacklist]: validation, the membership check, the insert. *)
Definition add_user_to_blacklist (d : db) (u by_ : string) (g : option string)
    (rsn : string) : db * bool :=
  if negb (Py.isdigit u) then (d, false)
  else if negb (validate_input_length rsn 200) then (d, false)
  else if is_in_blacklist d u g then (d, false)
  else add_to_blacklist d u by_ g rsn.

Definition is_user_blacklisted := is_in_blacklist.
Definition get_user_blacklist_info := Store.get_user_blacklist_info.

End Service.

(** ** utils.py: message chains and [NotificationManager] *)
Module Msg.

(** [Comp.At] and [Comp.Plain]. *)
Inductive comp := At (qq : string) | Plain (text : string).

(** The loop of [build_welcome_chain] over [enumerate(parts)], from index [i]. *)
Fixpoint chain_of_parts (user_id group_id : string) (i : nat) (parts : list string)
    : list comp :=
  match parts with
  | [] => []
  | part :: parts' =>
      ((if (0 <? i)%nat then [At user_id] else []) ++
       (if Py.truthy part then
          let text := Py.replace part "{group}" group_id in
          if Py.strip_nonempty text then [Plain text] else []
        else []) ++ chain_of_parts user_id group_id (S i) parts')%list
  end.

(** [MessageBuilder.build_welcome_chain]. *)
Definition build_welcome_chain (welcome_msg user_id group_id : string) : list comp :=
  match chain_of_parts user_id group_id 0 (Py.split welcome_msg "{user}") with
  | [] => [At user_id; Plain " 欢迎加入群聊！"]
  | chain => chain
  end.

(** [MessageBuilder.build_blacklist_notification]. *)
Definition build_blacklist_notification (user_id : string) (is_success : bool)
    (reason error_msg : string) : list comp :=
  if is_success then
    [Plain ("🚫 检测到黑名单用户 " ++ user_id ++ " 加入群聊" ++ String "010"%char "");
     Plain (if Py.truthy reason then "已自动踢出，原因：" ++ reason else "已自动踢出")]
  else
    [Plain ("⚠️ 检测到黑名单用户 " ++ user_id ++ " 加入群聊" ++ String "010"%char "");
     Plain ("自动踢出失败，请管理员手动处理" ++ String "010"%char "");
     Plain ("失败原因：" ++ error_msg ++ String "010"%char "");
     Plain (if Py.truthy reason then "黑名单原因：" ++ reason else "黑名单用户")].

(** [_last_notification_time]: the dict from keys to emission times. *)
Definition notif_state := list (string * Z).

Definition last_time (st : notif_state) (k : string) : Z :=
  match find (fun p => String.eqb (fst p) k) st with
  | Some (_, t) => t
  | None => 0
  end.

Definition set_time (st : notif_state) (k : string) (t : Z) : notif_state :=
  (k, t) :: filter (fun p => negb (String.eqb (fst p) k)) st.

(** [should_send_notification] at time [now] with the manager's [cooldown]. *)
Definition should_send_notification (cooldown : Z) (st : notif_state) (now : Z)
    (k : string) : bool * notif_state :=
  let last := last_time st k in
  if now - last >=? cooldown then (true, set_time st k now) else (false, st).

(** Sequential calls for one key at the times [ts]: number sent, final state. *)
Fixpoint run_burst (cooldown : Z) (st : notif_state) (k : string) (ts : list Z)
    : nat * notif_state :=
  match ts with
  | [] => (0%nat, st)
  | t :: ts' =>
      let (ok, st1) := should_send_notification cooldown st t k in
      let (n, st2) := run_burst cooldown st1 k ts' in
      ((if ok then S n else n), st2)
  end.

End Msg.

(** ** handlers.py: [GroupEventHandler] *)
Module Handler.
Import Store Msg.

(** What a handler does outside the store: a kick through the platform
    adapter, or a yielded message chain. *)
Inductive act := ActKick (user_id reason : string) | ActSend (chain : list comp).

(** The notification manager of the plugin: cooldown 30 seconds. *)
Definition cooldown : Z := 30.

Definition default_welcome (user_id : string) : list comp :=
  [At user_id; Plain " 欢迎加入群聊！"].

(** [handle_member_join]. [kick] is [PlatformAdapter.kick_user_from_group]
    (any outcome); the result is the acts, in order, and the new cooldown
    table. *)
Definition handle_member_join (d : db) (ns : notif_state) (now : Z)
    (kick : string -> string -> bool * string) (group_id user_id : string)
    : list act * notif_state :=
  if negb (Py.truthy user_id) then ([], ns)
  else if Service.is_user_blacklisted d user_id (Some group_id) then
    let reason :=
      match Service.get_user_blacklist_info d user_id (Some group_id) with
      | Some r => if Py.truthy (Store.reason r) then Store.reason r else "黑名单用户"
      | None => ""
      end in
    let kick_reason := "黑名单用户：" ++ reason in
    let (success, kick_msg) := kick user_id kick_reason in
    let (should_notify, ns') :=
      should_send_notification cooldown ns now ("blacklist_join_" ++ group_id) in
    (ActKick user_id kick_reason ::
       (if should_notify then
          [ActSend (build_blacklist_notification user_id success reason
                      (if success then "" else kick_msg))]
        else []), ns')
  else
    match get_welcome_message d group_id with
    | Some w =>
        if Py.truthy w then ([ActSend (build_welcome_chain w user_id group_id)], ns)
        else ([ActSend (default_welcome user_id)], ns)
    | None => ([ActSend (default_welcome user_id)], ns)
    end.

(** [reason_map.get(sub_type, f"离开群聊({sub_type})")]; [None] for kick_me. *)
Definition leave_reason (sub_type : string) : option string :=
  if String.eqb sub_type "leave" then Some "主动退群"
  else if String.eqb sub_type "kick" then Some "被踢出群"
  else if String.eqb sub_type "kick_me" then None
  else Some ("离开群聊(" ++ sub_type ++ ")").

(** [handle_member_leave]: new store, new cooldown table, yielded chains. *)
Definition handle_member_leave (d : db) (ns : notif_state) (now : Z)
    (group_id user_id sub_type : string) : db * notif_state * list act :=
  match leave_reason sub_type with
  | None => (d, ns, [])
  | Some reason =>
      let base := "用户 " ++ user_id ++ " 离开了群聊" in
      let (d', notification_msg) :=
        if Py.truthy reason then
          if negb (Service.is_user_blacklisted d user_id (Some group_id)) then
            let (d1, success) :=
              Service.add_user_to_blacklist d user_id "system_auto" (Some group_id) reason in
            (d1, if success then base ++ "，已自动加入群黑名单"
                 else base ++ "，加入黑名单失败")
          else (d, base ++ "，已在群黑名单中")
        else (d, base) in
      let (should_notify, ns') :=
        should_send_notification cooldown ns now ("member_leave_" ++ group_id) in
      (d', ns', if should_notify then [ActSend [Plain notification_msg]] else [])
  end.

End Handler.

(** ** permissions.py: [PermissionManager._is_group_admin_async] *)
Module Perm.

(** [event.platform_meta]: [owner_id] and [group_admins]. *)
Record meta := mk_meta { owner_id : option string; group_admins : list string }.

(** The parts of the inbound event the resolver reads: the sender, the
    platform name, whether it is an [AiocqhttpMessageEvent] with a [bot],
    whether that client is truthy with an [api], and [platform_meta]. *)
Record event := mk_event {
  sender_id : string;
  platform_name : option string;
  aiocq_bot : bool;
  client_api : bool;
  platform_meta : option meta
}.

(** The call [get_group_member_info]: it raises (also when [int(group_id)]
    or [int(user_id)] raises, or [data] is not a dict), returns a falsy
    value, or returns a dict whose (possibly nested under [data]) [role]
    field is given. *)
Inductive api_outcome := ApiRaises | ApiFalsy | ApiRole (role : option string).

(** [_group_admin_cache] and [_cache_timestamps], always written together. *)
Definition cache := list (string * (bool * Z)).

Definition cache_ttl : Z := 300.

Definition cache_find (c : cache) (k : string) : option (bool * Z) :=
  option_map snd (find (fun p => String.eqb (fst p) k) c).

Definition cache_set (c : cache) (k : string) (v : bool) (t : Z) : cache :=
  (k, (v, t)) :: filter (fun p => negb (String.eqb (fst p) k)) c.

(** [_cleanup_expired_cache]. *)
Definition cleanup_expired_cache (c : cache) (now : Z) : cache :=
  filter (fun p => now - snd (snd p) <? cache_ttl) c.

(** [_check_platform_meta_admin]. *)
Definition check_platform_meta_admin (ev : event) (user_id : string) : bool :=
  match platform_meta ev with
  | None => false
  | Some m =>
      match owner_id m with
      | Some o => Py.truthy o && String.eqb user_id o
      | None => false
      end || existsb (String.eqb user_id) (group_admins m)
  end.

(** The live lookup of [_is_group_admin_async]: [Some true] when it runs
    and the role is owner or admin, [Some false] when it runs and the role is
    anything else (a missing [role] reads as "member"), [None] when it is not
    performed or fails. *)
Definition live_lookup (ev : event) (api : api_outcome) : option bool :=
  if match platform_name ev with Some p => String.eqb p "aiocqhttp" | None => false end
     && aiocq_bot ev && client_api ev then
    match api with
    | ApiRole r =>
        let role := match r with Some x => x | None => "member" end in
        Some (String.eqb role "owner" || String.eqb role "admin")
    | _ => None
    end
  else None.

(** [_is_group_admin_async] at time [now], the live call answering [api]. *)
Definition is_group_admin_async (c : cache) (ev : event) (group_id : string)
    (now : Z) (api : api_outcome) : bool * cache :=
  let user_id := sender_id ev in
  if negb (Py.truthy user_id) then (false, c)
  else
    let cache_key := group_id ++ "_" ++ user_id in
    let fresh :=
      match cache_find c cache_key with
      | Some (v, ts) => if now - ts <? cache_ttl then Some v else None
      | None => None
      end in
    match fresh with
    | Some v => (v, c)
    | None =>
        match live_lookup ev api with
        | Some true =>
            (true, cleanup_expired_cache (cache_set c cache_key true now) now)
        | _ =>
            let is_admin := check_platform_meta_admin ev user_id in
            (is_admin, cleanup_expired_cache (cache_set c cache_key is_admin now) now)
        end
    end.

End Perm.

(** ** onebot_adapter.py: [OneBotAdapter] *)
Module Adapter.

(** [OneBotConfig] (the fields the request loop reads). *)
Record config := mk_config { max_retries : nat; retry_delay : Z }.

(** A decoded JSON object: its [status], [retcode] and [message] keys. *)
Record json := mk_json {
  j_status : option string;
  j_retcode : option Z;
  j_message : option string
}.

(** The response text: empty, not JSON, a JSON object, or a JSON value that
    is not an object (an array, a string, a number, [true], [false] or
    [null]), whose [.get] raises [AttributeError]. *)
Inductive body := BEmpty | BNotJson | BJson (j : json) | BJsonOther.

(** What one pass of the [async with self._session.request(...)] gives: a
    response, or one of the caught exception classes. *)
Inductive attempt :=
  | HttpResp (status : Z) (b : body)
  | ConnectorErr
  | TimeoutErr
  | OtherClientErr.

(** The message texts of the raised errors. *)
Inductive msg :=
  | MHttp (status : Z) | MText (s : string) | MJsonFail
  | MConnect | MTimeout | MClient | MClosed | MExhausted.

(** [OneBotApiError] and its subclasses. *)
Inductive exn :=
  | OneBotApiError (m : msg)
  | OneBotNetworkError (m : msg)
  | OneBotTimeoutError (m : msg)
  | OneBotResponseError (m : msg) (status_code : option Z).

Record api_response := mk_resp { success : bool; error_message : string }.

(** Python exceptions that escape the adapter's methods: [ValueError] from
    [int()], [AttributeError] from [.get] on a decoded JSON value that is not
    a dict; no [except] clause of the adapter names either. *)
Inductive py_exn := ValueError | AttributeError.

(** How [_make_request] ends: a response, a raised [OneBotApiError], or
    another exception propagating out of it. *)
Inductive result := ROk (r : api_response) | RErr (e : exn) | RRaise (e : py_exn).

Inductive pyval := VInt (z : Z) | VBool (b : bool) | VStr (s : string).

(** Observable I/O: an HTTP request, or [asyncio.sleep]. *)
Inductive io := Request (endpoint : string) (data : list (string * pyval)) | Sleep (d : Z).

(** [ApiResponse.from_dict]. *)
Definition from_dict (j : json) : api_response :=
  let ok := match j_status j, j_retcode j with
            | Some s, Some 0 => String.eqb s "ok"
            | _, _ => false
            end in
  mk_resp ok (if ok then "" else match j_message j with Some m => m | None => "" end).

(** The error raised for an HTTP status >= 400: the JSON [message] of the
    body when there is one, else "HTTP <status>: <reason>". *)
Definition http_error (st : Z) (b : body) : exn :=
  let m := match b with
           | BJson j => match j_message j with Some s => MText s | None => MHttp st end
           | _ => MHttp st
           end in
  OneBotResponseError m (Some st).

(** The [for attempt in range(max_retries + 1)] loop of [_make_request];
    [net i] is what attempt [i] meets. *)
Fixpoint request_loop (cfg : config) (net : nat -> attempt) (endpoint : string)
    (data : list (string * pyval)) (fuel attempt_no : nat) : result * list io :=
  match fuel with
  | O => (RErr (OneBotApiError MExhausted), [])
  | S fuel' =>
      let retry := (attempt_no <? max_retries cfg)%nat in
      let again :=
        let (r, tr) := request_loop cfg net endpoint data fuel' (S attempt_no) in
        (r, Sleep (retry_delay cfg) :: tr) in
      let (r, tr) :=
        match net attempt_no with
        | HttpResp st b =>
            if 400 <=? st then
              match b with
              | BJsonOther => (RRaise AttributeError, [])
              | _ => if (500 <=? st) && retry then again
                     else (RErr (http_error st b), [])
              end
            else
              match b with
              | BEmpty => (ROk (from_dict (mk_json None None None)), [])
              | BNotJson => (RErr (OneBotResponseError MJsonFail None), [])
              | BJson j => (ROk (from_dict j), [])
              | BJsonOther => (RRaise AttributeError, [])
              end
        | ConnectorErr => if retry then again else (RErr (OneBotNetworkError MConnect), [])
        | TimeoutErr => if retry then again else (RErr (OneBotTimeoutError MTimeout), [])
        | OtherClientErr => if retry then again else (RErr (OneBotApiError MClient), [])
        end in
      (r, Request endpoint data :: tr)
  end.

(** [_make_request]; [closed] is [self._closed]. *)
Definition make_request (cfg : config) (closed : bool) (net : nat -> attempt)
    (endpoint : string) (data : list (string * pyval)) : result * list io :=
  if closed then (RErr (OneBotApiError MClosed), [])
  else request_loop cfg net endpoint data (S (max_retries cfg)) 0.

(** A key of the [data] dict of an id-taking method: an id given as a
    string and sent as [int(id)], or a value sent as given. *)
Inductive field := FId (key id : string) | FVal (key : string) (v : pyval).

(** The [data] dict, built left to right; [None] when an [int()] raises. *)
Fixpoint build_data (fs : list field) : option (list (string * pyval)) :=
  match fs with
  | [] => Some []
  | FId k s :: fs' =>
      match Py.int s with
      | None => None
      | Some z => option_map (cons (k, VInt z)) (build_data fs')
      end
  | FVal k v :: fs' => option_map (cons (k, v)) (build_data fs')
  end.

(** What an id-taking method meets inside its [try]: the [ValueError] of an
    [int()], before any I/O, or the outcome of its one [_make_request]. *)
Inductive call_outcome := CRaise (e : py_exn) | CRequest (r : result).

Definition request_with_ids (cfg : config) (closed : bool) (net : nat -> attempt)
    (endpoint : string) (fs : list field) : call_outcome * list io :=
  match build_data fs with
  | None => (CRaise ValueError, [])
  | Some data => let (r, tr) := make_request cfg closed net endpoint data in (CRequest r, tr)
  end.

(** The five other id-taking methods up to their request: the tuple each
    builds from an [ApiResponse] is not modelled, and an [OneBotApiError]
    ([RErr]) is what their [except] clause turns into [(False, ...)]. *)
Definition send_private_message cfg closed net (user_id message : string) :=
  request_with_ids cfg closed net "send_private_msg"
    [FId "user_id" user_id; FVal "message" (VStr message)].

Definition send_group_message cfg closed net (group_id message : string) :=
  request_with_ids cfg closed net "send_group_msg"
    [FId "group_id" group_id; FVal "message" (VStr message)].

Definition get_group_member_list cfg closed net (group_id : string) :=
  request_with_ids cfg closed net "get_group_member_list" [FId "group_id" group_id].

Definition get_group_info cfg closed net (group_id : string) :=
  request_with_ids cfg closed net "get_group_info" [FId "group_id" group_id].

Definition get_user_info cfg closed net (user_id : string) :=
  request_with_ids cfg closed net "get_stranger_info" [FId "user_id" user_id].

(** The second element of [kick_group_member]'s tuple. *)
Inductive kick_msg := KOk (user_id : string) | KFail (error : string) | KExc (e : exn).

Inductive kick_outcome := KReturn (ok : bool) (m : kick_msg) | KRaise (e : py_exn).

(** [kick_group_member] with string ids: [int()] runs inside the [try], whose
    [except OneBotApiError] does not catch [ValueError]. *)
Definition kick_group_member (cfg : config) (closed : bool) (net : nat -> attempt)
    (group_id user_id : string) (reject_add_request : bool) : kick_outcome * list io :=
  let (o, tr) :=
    request_with_ids cfg closed net "set_group_kick"
      [FId "group_id" group_id; FId "user_id" user_id;
       FVal "reject_add_request" (VBool reject_add_request)] in
  (match o with
   | CRaise e => KRaise e
   | CRequest (ROk resp) =>
       if success resp then KReturn true (KOk user_id)
       else KReturn false (KFail (error_message resp))
   | CRequest (RErr e) => KReturn false (KExc e)
   | CRequest (RRaise e) => KRaise e
   end, tr).

End Adapter.

(** ** Reference readings and sample values *)
Module Ref.
Import Msg Adapter.

(** The welcome renderer as the specification words it: split on [{user}],
    a mention at each split point, [{group}] substituted in the segments,
    and only the segments that are empty after substitution dropped. *)
Fixpoint spec_parts (user_id group_id : string) (first : bool) (parts : list string)
    : list comp :=
  match parts with
  | [] => []
  | part :: parts' =>
      ((if first then [] else [At user_id]) ++
       (let text := Py.replace part "{group}" group_id in
        if Py.truthy text then [Plain text] else []) ++
       spec_parts user_id group_id false parts')%list
  end.

Definition spec_welcome_chain (welcome_msg user_id group_id : string) : list comp :=
  match spec_parts user_id group_id true (Py.split welcome_msg "{user}") with
  | [] => [At user_id; Plain " 欢迎加入群聊！"]
  | chain => chain
  end.


(** Elements [build_welcome_chain] keeps: mentions and non-blank texts. *)
Definition keep (c : comp) : bool :=
  match c with At _ => true | Plain t => Py.strip_nonempty t end.



Definition is_request (x : io) : bool :=
  match x with Request _ _ => true | Sleep _ => false end.

Definition count_requests (tr : list io) : nat := length (filter is_request tr).

End Ref.

Module Sample.
Import Store.

Definition db_of (rs : list row) (down_ : bool) : db := mk_db rs [] 100 5000 down_.

Definition empty_db : db := db_of [] false.

Definition row_global : row := mk_row 1 "999" None "spam" "10001" 4000 4000.
Definition row_group : row := mk_row 2 "999" (Some "111") "flood" "20002" 4100 4100.

(** User 999 blacklisted globally and in group 111. *)
Definition both_db : db := db_of [row_global; row_group] false.

(** An aiocqhttp event from 222 whose [platform_meta] names 222 as owner. *)
Definition owner_meta_event : Perm.event :=
  Perm.mk_event "222" (Some "aiocqhttp") true true
                (Some (Perm.mk_meta (Some "222") [])).

Definition cfg3 : Adapter.config := Adapter.mk_config 3 1.

Definition net_ok : nat -> Adapter.attempt :=
  fun _ => Adapter.HttpResp 200 (Adapter.BJson (Adapter.mk_json (Some "ok") (Some 0) None)).


Definition net_always (x : Adapter.attempt) : nat -> Adapter.attempt := fun _ => x.

Definition no_kick : string -> string -> bool * string := fun _ _ => (false, "denied").

End Sample.

(** ** database.py: the rest of [SunosDatabase] *)
Module Database.
Import Store.

(** [remove_from_blacklist]: [group_id IS NULL] for [None], [group_id = ?]
    otherwise; the answer is [rowcount > 0]. *)
Definition remove_from_blacklist (d : db) (u : string) (g : option string) : db * bool :=
  if down d then (d, false)
  else
    let hit r := String.eqb (user_id r) u && opt_eqb (group_id r) g in
    (mk_db (filter (fun r => negb (hit r)) (rows d)) (welcomes d) (next_id d)
           (clock d) (down d),
     existsb hit (rows d)).

(** [set_welcome_message]: [INSERT OR REPLACE] on the [UNIQUE NOT NULL]
    column [group_id] replaces the group's row by a new last one. *)
Definition set_welcome_message (d : db) (g m : string) : db * bool :=
  if down d then (d, false)
  else
    (mk_db (rows d) (filter (fun p => negb (String.eqb (fst p) g)) (welcomes d) ++ [(g, m)])
           (next_id d) (clock d) (down d), true).

(** [delete_welcome_message]. *)
Definition delete_welcome_message (d : db) (g : string) : db * bool :=
  if down d then (d, false)
  else
    (mk_db (rows d) (filter (fun p => negb (String.eqb (fst p) g)) (welcomes d))
           (next_id d) (clock d) (down d),
     existsb (fun p => String.eqb (fst p) g) (welcomes d)).

(** The [group_settings] table: [(group_id, enabled)] rows, [group_id]
    [UNIQUE NOT NULL]; [s_down] when the connection or a statement raises. *)
Record settings := mk_settings { enabled_rows : list (string * bool); s_down : bool }.

(** [set_group_enabled]. *)
Definition set_group_enabled (st : settings) (g : string) (enabled : bool)
    : settings * bool :=
  if s_down st then (st, false)
  else
    (mk_settings (filter (fun p => negb (String.eqb (fst p) g)) (enabled_rows st)
                    ++ [(g, enabled)]) (s_down st), true).

(** [is_group_enabled]: the stored value, [True] for a group without a row
    and [True] when the query raises. *)
Definition is_group_enabled (st : settings) (g : string) : bool :=
  if s_down st then true
  else match find (fun p => String.eqb (fst p) g) (enabled_rows st) with
       | Some (_, b) => b
       | None => true
       end.

(** A row of [keywords] (the columns the code reads). *)
Record kw := mk_kw { kw_id : Z; keyword : string; reply : string }.

(** The [keywords] table in rowid order (AUTOINCREMENT ids only grow, so
    this is also [ORDER BY id]), the next id, and [kw_down]. *)
Record kw_db := mk_kw_db { kws : list kw; kw_next : Z; kw_down : bool }.

(** [add_keyword]: [False] when a row has the keyword already. *)
Definition add_keyword (d : kw_db) (k r : string) : kw_db * bool :=
  if kw_down d then (d, false)
  else if existsb (fun x => String.eqb (keyword x) k) (kws d) then (d, false)
  else (mk_kw_db (kws d ++ [mk_kw (kw_next d) k r]) (kw_next d + 1) (kw_down d), true).

(** [delete_keyword]: [rowcount > 0]. *)
Definition delete_keyword (d : kw_db) (i : Z) : kw_db * bool :=
  if kw_down d then (d, false)
  else (mk_kw_db (filter (fun x => negb (Z.eqb (kw_id x) i)) (kws d)) (kw_next d) (kw_down d),
        existsb (fun x => Z.eqb (kw_id x) i) (kws d)).

(** [get_all_keywords]: [[]] when the query raises. *)
Definition get_all_keywords (d : kw_db) : list kw :=
  if kw_down d then [] else kws d.

(** [find_keyword_reply]: the first row whose keyword equals [message.strip()]. *)
Definition find_keyword_reply (d : kw_db) (message : string) : option string :=
  if kw_down d then None
  else option_map reply (find (fun x => String.eqb (keyword x) (PyText.strip message)) (kws d)).

End Database.

(** ** services.py: [KeywordService], [BlacklistService.remove_user_from_blacklist] *)
Module Services.
Import Database.

(** [reply.replace("\\n", "\n")]: the two characters backslash, n become a
    newline. *)
Definition unescape_newlines (s : string) : string :=
  Py.replace s (String "092"%char (String "n"%char "")) (String "010"%char "").

(** [KeywordService.add_keyword]. *)
Definition add_keyword (d : kw_db) (k r : string) : kw_db * bool :=
  if negb (Service.validate_input_length k 100) then (d, false)
  else if negb (Service.validate_input_length r 1000) then (d, false)
  else Database.add_keyword d k (unescape_newlines r).

(** [KeywordService.delete_keyword]: a 1-based index into the listing. *)
Definition delete_keyword (d : kw_db) (index : Z) : kw_db * bool :=
  let keywords := get_all_keywords d in
  match keywords with
  | [] => (d, false)
  | _ =>
      if (index <? 1) || (Z.of_nat (length keywords) <? index) then (d, false)
      else match nth_error keywords (Z.to_nat (index - 1)) with
           | Some x => Database.delete_keyword d (kw_id x)
           | None => (d, false)
           end
  end.

(** [KeywordService.find_keyword_reply]. *)
Definition find_keyword_reply (d : kw_db) (message : string) : option string :=
  Database.find_keyword_reply d (PyText.strip message).

(** [BlacklistService.remove_user_from_blacklist]. *)
Definition remove_user_from_blacklist (d : Store.db) (u : string) (g : option string)
    : Store.db * bool :=
  if negb (Py.isdigit u) then (d, false)
  else if negb (Store.is_in_blacklist d u g) then (d, false)
  else remove_from_blacklist d u g.

End Services.

(** ** handlers.py: [handle_group_events] and [AutoReplyHandler] *)
Module Events.
Import Store Msg Handler.

(** [handle_group_events]: [group_id] is [event.get_group_id()], [info] the
    triple [(notice_type, sub_type, user_id)] of
    [SystemUtils.extract_group_event_info]. *)
Definition handle_group_events (d : db) (ns : notif_state) (now : Z)
    (kick : string -> string -> bool * string) (group_id : string)
    (info : option string * option string * option string)
    : db * notif_state * list act :=
  if negb (Py.truthy group_id) then (d, ns, [])
  else
    let '(notice_type, sub_type, uid) := info in
    let is_increase := opt_eqb notice_type (Some "group_increase") in
    let is_decrease := opt_eqb notice_type (Some "group_decrease") in
    if negb (is_increase || is_decrease) then (d, ns, [])
    else
      match uid with
      | None => (d, ns, [])
      | Some u =>
          if negb (Py.truthy u) then (d, ns, [])
          else if is_increase then
            let (acts, ns') := handle_member_join d ns now kick group_id u in
            (d, ns', acts)
          else
            handle_member_leave d ns now group_id u
              (match sub_type with
               | Some s => if Py.truthy s then s else "unknown"
               | None => "unknown"
               end)
      end.

(** [AutoReplyHandler.handle_auto_reply]: the yielded chains and whether
    [event.stop_event()] ran. *)
Definition handle_auto_reply (kwd : Database.kw_db) (st : Database.settings)
    (is_at_or_wake_command is_system_notification : bool)
    (message_str group_id : string) : list act * bool :=
  if is_at_or_wake_command || is_system_notification then ([], false)
  else if negb (Py.truthy message_str) || negb (Py.truthy (PyText.strip message_str))
  then ([], false)
  else if Py.truthy group_id && negb (Database.is_group_enabled st group_id) then ([], false)
  else
    match Services.find_keyword_reply kwd (PyText.strip message_str) with
    | Some r => if Py.truthy r then ([ActSend [Plain r]], true) else ([], false)
    | None => ([], false)
    end.

End Events.

(** ** permissions.py: permission levels *)
Module Permissions.
Import Perm.

Inductive level := SUPER_ADMIN | GROUP_ADMIN | USER.

Definition level_eqb (a b : level) : bool :=
  match a, b with
  | SUPER_ADMIN, SUPER_ADMIN | GROUP_ADMIN, GROUP_ADMIN | USER, USER => true
  | _, _ => false
  end.

(** A message event: the fields [_is_group_admin_async] reads, [event.role]
    and [event.get_group_id()]. *)
Record msg_event := mk_msg_event { base : event; role : string; group : option string }.

Definition group_truthy (me : msg_event) : bool :=
  match group me with Some g => Py.truthy g | None => false end.

(** [_is_group_admin]: [platform_meta] only. *)
Definition is_group_admin (ev : event) : bool :=
  if negb (Py.truthy (sender_id ev)) then false
  else check_platform_meta_admin ev (sender_id ev).

(** [get_user_permission_level]. *)
Definition get_user_permission_level (me : msg_event) : level :=
  if String.eqb (role me) "admin" then SUPER_ADMIN
  else if group_truthy me && is_group_admin (base me) then GROUP_ADMIN
  else USER.

(** [check_permission]; [None] is the default [required_level]. *)
Definition check_permission (me : msg_event) (required_level : option level) : bool :=
  let user_level := get_user_permission_level me in
  match required_level with
  | Some SUPER_ADMIN => level_eqb user_level SUPER_ADMIN
  | _ => level_eqb user_level SUPER_ADMIN || level_eqb user_level GROUP_ADMIN
  end.

(** [check_admin_permission_async] with the manager's cache at time [now]. *)
Definition check_admin_permission_async (c : cache) (me : msg_event) (now : Z)
    (api : api_outcome) : bool * cache :=
  if String.eqb (role me) "admin" then (true, c)
  else match group me with
       | Some g => if Py.truthy g then is_group_admin_async c (base me) g now api else (false, c)
       | None => (false, c)
       end.

End Permissions.

(** ** onebot_adapter.py: [OneBotConfig.__post_init__] *)
Module Config.

(** The normalised [base_url]; [None] is the [ValueError] for an empty one. *)
Definition post_init (base_url : string) : option string :=
  if negb (Py.truthy base_url) then None
  else
    let url := if prefix "http://" base_url || prefix "https://" base_url then base_url
               else "http://" ++ base_url in
    Some (PyText.rstrip_char "/"%char url).

End Config.

(** * Properties *)

Import Msg Handler.

(** ** Store lemmas *)

Lemma existsb_find {A} (f : A -> bool) (l : list A) :
  existsb f l = true -> exists x, find f l = Some x.
Proof.
  induction l as [|a l IH]; simpl; [discriminate|].
  destruct (f a); simpl; eauto.
Qed.

Lemma existsb_find_none {A} (f : A -> bool) (l : list A) :
  existsb f l = false -> find f l = None.
Proof.
  induction l as [|a l IH]; simpl; [reflexivity|].
  destruct (f a); simpl; [discriminate | exact IH].
Qed.

Lemma group_match_true u g r :
  Store.group_match u g r = true -> Store.user_id r = u /\ Store.group_id r = Some g.
Proof.
  unfold Store.group_match, Store.opt_eqb.
  destruct (Store.group_id r) as [x|]; [|rewrite andb_false_r; discriminate].
  intros H. apply andb_prop in H as [H1 H2].
  apply String.eqb_eq in H1, H2. subst. auto.
Qed.

Lemma unique_clash_some r u g :
  Store.unique_clash r u (Some g) = Store.group_match u g r.
Proof.
  unfold Store.unique_clash, Store.group_match, Store.opt_eqb.
  destruct (Store.group_id r); reflexivity.
Qed.

(** No clashing row means [INSERT OR REPLACE] only appends. *)
Lemma filter_no_clash u g (rs : list Store.row) :
  existsb (Store.group_match u g) rs = false ->
  filter (fun x => negb (Store.unique_clash x u (Some g))) rs = rs.
Proof.
  induction rs as [|r rs IH]; simpl; [reflexivity|].
  rewrite unique_clash_some.
  destruct (Store.group_match u g r); simpl; [discriminate|].
  intros H. f_equal. exact (IH H).
Qed.

Lemma filter_pair_after_clash_removal u g (rs : list Store.row) :
  filter (fun r => String.eqb (Store.user_id r) u && Store.opt_eqb (Store.group_id r) (Some g))
    (filter (fun x => negb (Store.unique_clash x u (Some g))) rs) = [].
Proof.
  induction rs as [|r rs IH]; simpl; [reflexivity|].
  rewrite unique_clash_some. unfold Store.group_match.
  destruct (String.eqb (Store.user_id r) u && Store.opt_eqb (Store.group_id r) (Some g)) eqn:E;
    simpl; [exact IH|]. rewrite E. exact IH.
Qed.

(** For a group-scoped pair, the upsert leaves exactly the new row. *)
Lemma add_to_blacklist_group_upsert d u by_ g rsn :
  Store.down d = false ->
  Store.rows_for (fst (Store.add_to_blacklist d u by_ (Some g) rsn)) u (Some g) =
  [Store.mk_row (Store.next_id d) u (Some g) rsn by_ (Store.clock d) (Store.clock d)].
Proof.
  intros Hd. unfold Store.add_to_blacklist. rewrite Hd. unfold Store.rows_for. simpl.
  rewrite filter_app, filter_pair_after_clash_removal. simpl.
  rewrite !String.eqb_refl. reflexivity.
Qed.

Lemma in_blacklist_of_rows d u g :
  Store.down d = false -> Py.truthy g = true ->
  (existsb (Store.global_match u) (Store.rows d) ||
   existsb (Store.group_match u g) (Store.rows d)) = true ->
  Store.is_in_blacklist d u (Some g) = true.
Proof.
  intros Hd Hg H. unfold Store.is_in_blacklist. rewrite Hd, Hg.
  destruct (existsb (Store.global_match u) (Store.rows d)); [reflexivity|exact H].
Qed.

(** The blacklist branch of [handle_member_join]: a kick, then at most the
    blacklist notification, and nothing else. *)
Lemma join_blacklisted_branch d ns now kick g u :
  Py.truthy u = true -> Store.is_in_blacklist d u (Some g) = true ->
  exists rsn success kick_msg ok ns',
    kick u rsn = (success, kick_msg) /\
    should_send_notification cooldown ns now ("blacklist_join_" ++ g) = (ok, ns') /\
    handle_member_join d ns now kick g u =
      (ActKick u rsn ::
         (if ok then
            [ActSend (build_blacklist_notification u success
                        (match Service.get_user_blacklist_info d u (Some g) with
                         | Some r => if Py.truthy (Store.reason r) then Store.reason r
                                     else "黑名单用户"
                         | None => "" end)
                        (if success then "" else kick_msg))]
          else []), ns').
Proof.
  intros Hu Hb. unfold handle_member_join, Service.is_user_blacklisted.
  rewrite Hu, Hb. cbv beta zeta.
  destruct (should_send_notification cooldown ns now ("blacklist_join_" ++ g))
    as [ok ns'] eqn:Hs.
  match goal with |- context [kick u ?r] => set (rsn := r) end.
  destruct (kick u rsn) as [success kick_msg] eqn:Hk.
  exists rsn, success, kick_msg, ok, ns'.
  split; [exact Hk|split; [first [exact Hs|reflexivity]|reflexivity]].
Qed.

(** ** The join handler *)




(** C10: the blacklist check is fail-open: when the store raises,
    [is_in_blacklist] answers [False] for every group, and the join handler
    yields the default welcome even for a user with a blacklist row. *)
Theorem is_in_blacklist_fail_open :
  forall d user_id group_id ns now kick,
  Store.down d = true -> Py.truthy user_id = true ->
  (forall g, Store.is_in_blacklist d user_id g = false) /\
  fst (handle_member_join d ns now kick group_id user_id) =
    [ActSend (default_welcome user_id)].
Proof.
  intros d u g ns now kick Hd Hu. split.
  - intros g'. unfold Store.is_in_blacklist. rewrite Hd. reflexivity.
  - unfold handle_member_join, Service.is_user_blacklisted, Store.is_in_blacklist,
      Store.get_welcome_message.
    rewrite Hd, Hu. reflexivity.
Qed.

Lemma is_in_blacklist_fail_open_witness :
  existsb (Store.global_match "999") (Store.rows (Sample.db_of [Sample.row_global] true)) = true /\
  (forall g, Store.is_in_blacklist (Sample.db_of [Sample.row_global] true) "999" g = false) /\
  fst (handle_member_join (Sample.db_of [Sample.row_global] true) [] 1000 Sample.no_kick "111" "999") =
    [ActSend (default_welcome "999")].
Proof.
  split; [reflexivity|].
  apply is_in_blacklist_fail_open; reflexivity.
Defined.

(** ** Blacklist lookups *)

(** C9 (counterexample): with a global row and a row for group 111, the
    lookup used for reporting returns the group row, not the global one. *)
Lemma blacklist_info_group_row_first_cex :
  Store.get_user_blacklist_info Sample.both_db "999" (Some "111") = Some Sample.row_group /\
  Store.group_id Sample.row_group = Some "111".
Proof. split; reflexivity. Qed.

(** C9 (amended): when the store answers, the reporting lookup returns a row
    of the group when one exists and the global row only otherwise, while
    either row alone makes the join handler attempt the kick; when the
    store raises, the lookup returns nothing and no kick is attempted. *)
Theorem blacklist_info_group_precedence :
  forall d user_id group_id,
  Py.truthy group_id = true ->
  (Store.down d = false ->
  (existsb (Store.group_match user_id group_id) (Store.rows d) = true ->
   exists r, Store.get_user_blacklist_info d user_id (Some group_id) = Some r /\
             Store.user_id r = user_id /\ Store.group_id r = Some group_id) /\
  (existsb (Store.group_match user_id group_id) (Store.rows d) = false ->
   Store.get_user_blacklist_info d user_id (Some group_id) =
     find (Store.global_match user_id) (Store.rows d)) /\
  (forall ns now kick, Py.truthy user_id = true ->
   (existsb (Store.global_match user_id) (Store.rows d) ||
    existsb (Store.group_match user_id group_id) (Store.rows d)) = true ->
   exists rsn, In (ActKick user_id rsn)
                  (fst (handle_member_join d ns now kick group_id user_id)))) /\
  (Store.down d = true ->
   Store.get_user_blacklist_info d user_id (Some group_id) = None /\
   forall ns now kick rsn,
     ~ In (ActKick user_id rsn) (fst (handle_member_join d ns now kick group_id user_id))).
Proof.
  intros d u g Hg. split.
  2:{ intros Hd. split; [unfold Store.get_user_blacklist_info; rewrite Hd; reflexivity|].
      intros ns now kick rsn.
      unfold handle_member_join, Service.is_user_blacklisted, Store.is_in_blacklist,
        Store.get_welcome_message.
      rewrite Hd. destruct (Py.truthy u); simpl; [|intros []].
      intros [H|[]]; discriminate H. }
  intros Hd. split; [|split].
  - intros Hrow. destruct (existsb_find _ _ Hrow) as [r Hr].
    exists r. unfold Store.get_user_blacklist_info. rewrite Hd, Hg, Hr.
    split; [reflexivity|]. apply group_match_true.
    exact (proj2 (find_some _ _ Hr)).
  - intros Hrow. unfold Store.get_user_blacklist_info. rewrite Hd, Hg.
    rewrite (existsb_find_none _ _ Hrow). reflexivity.
  - intros ns now kick Hu Hrow.
    destruct (join_blacklisted_branch d ns now kick g u Hu
                (in_blacklist_of_rows d u g Hd Hg Hrow))
      as (rsn & success & kick_msg & ok & ns' & _ & _ & ->).
    exists rsn. simpl. left. reflexivity.
Qed.

Lemma blacklist_info_group_precedence_witness :
  (exists r, Store.get_user_blacklist_info Sample.both_db "999" (Some "111") = Some r /\
             Store.user_id r = "999" /\ Store.group_id r = Some "111") /\
  (exists rsn, In (ActKick "999" rsn)
                 (fst (handle_member_join Sample.both_db [] 1000 Sample.no_kick "111" "999"))) /\
  Store.get_user_blacklist_info (Sample.db_of [Sample.row_global; Sample.row_group] true)
    "999" (Some "111") = None.
Proof.
  destruct (proj1 (blacklist_info_group_precedence Sample.both_db "999" "111" eq_refl) eq_refl)
    as (H1 & _ & H3).
  split; [apply H1; reflexivity|split; [apply (H3 [] 1000 Sample.no_kick); reflexivity|]].
  apply (proj2 (blacklist_info_group_precedence
                  (Sample.db_of [Sample.row_global; Sample.row_group] true) "999" "111" eq_refl)
               eq_refl).
Defined.

(** C4 (code bug): [UNIQUE(user_id, group_id)] does not hold back a second
    global row, since SQLite's NULLs are distinct: two inserts of
    [("999", NULL)] into an empty table leave two rows for that pair. *)
Theorem add_to_blacklist_global_pair_duplicated :
  let d1 := fst (Store.add_to_blacklist Sample.empty_db "999" "10001" None "spam") in
  let d2 := fst (Store.add_to_blacklist d1 "999" "10001" None "spam again") in
  length (Store.rows_for d1 "999" None) = 1%nat /\
  length (Store.rows_for d2 "999" None) = 2%nat.
Proof. split; reflexivity. Qed.

(** ** Permission resolution *)

(** C3 (code bug): a live lookup that answers the definitive role "member"
    is not trusted: resolution falls through to [platform_meta], which here
    names the sender as owner, and the positive result is cached. *)
Theorem group_admin_member_role_falls_back :
  Perm.live_lookup Sample.owner_meta_event (Perm.ApiRole (Some "member")) = Some false /\
  Perm.is_group_admin_async [] Sample.owner_meta_event "111" 1000
    (Perm.ApiRole (Some "member")) = (true, [("111_222", (true, 1000))]).
Proof. split; reflexivity. Qed.

(** ** Welcome rendering *)

Lemma chain_of_parts_filter u g i ps :
  chain_of_parts u g i ps = filter Ref.keep (Ref.spec_parts u g (Nat.eqb i 0) ps).
Proof.
  revert i. induction ps as [|part ps IH]; intros i; [reflexivity|].
  simpl. rewrite !filter_app, IH. simpl Nat.eqb.
  f_equal; [destruct i; reflexivity|]. f_equal.
  destruct part as [|c p]; [reflexivity|].
  simpl Py.truthy. cbv iota.
  destruct (Py.replace (String c p) "{group}" g) as [|c' t]; reflexivity.
Qed.

(** C8 (counterexample): a segment made only of whitespace is not empty,
    yet the renderer drops it: ["{user} {user}"] gives two mentions with
    nothing between them, not the reading that only drops empty segments. *)
Lemma welcome_chain_blank_segment_cex :
  build_welcome_chain "{user} {user}" "1" "2" = [At "1"; At "1"] /\
  Ref.spec_welcome_chain "{user} {user}" "1" "2" = [At "1"; Plain " "; At "1"] /\
  build_welcome_chain "{user} {user}" "1" "2" <> Ref.spec_welcome_chain "{user} {user}" "1" "2".
Proof. split; [reflexivity|split; [reflexivity|discriminate]]. Qed.

(** C8 (amended): the renderer is the split on [{user}] with a mention at
    each split point and [{group}] substituted, dropping the text segments
    that are empty or whitespace-only as [str.strip()] counts whitespace
    (an ideographic space U+3000 included); an empty result becomes the
    default greeting. "Hi {user}, welcome to {group}!" gives the text "Hi ", the
    mention of 123 and the text ", welcome to 456!"; "{user}" gives the
    mention alone. *)
Theorem welcome_chain_drops_blank_segments :
  (forall welcome_msg user_id group_id,
     build_welcome_chain welcome_msg user_id group_id =
     match filter Ref.keep
             (Ref.spec_parts user_id group_id true (Py.split welcome_msg "{user}")) with
     | [] => [At user_id; Plain " 欢迎加入群聊！"]
     | chain => chain
     end) /\
  build_welcome_chain "Hi {user}, welcome to {group}!" "123" "456" =
    [Plain "Hi "; At "123"; Plain ", welcome to 456!"] /\
  build_welcome_chain "{user}" "123" "456" = [At "123"] /\
  build_welcome_chain "{user}　{user}" "1" "2" = [At "1"; At "1"].
Proof.
  split; [|split; [reflexivity|split; reflexivity]].
  intros w u g. unfold build_welcome_chain. rewrite chain_of_parts_filter. reflexivity.
Qed.

(** ** Notification throttle *)

Lemma last_time_set st k t : last_time (set_time st k t) k = t.
Proof. unfold last_time, set_time. simpl. rewrite String.eqb_refl. reflexivity. Qed.

Lemma run_burst_silent c st k ts :
  (forall t, In t ts -> t - last_time st k < c) -> run_burst c st k ts = (0%nat, st).
Proof.
  induction ts as [|t ts IH]; intros H; [reflexivity|].
  simpl. unfold should_send_notification.
  assert (Hlt : t - last_time st k < c) by (apply H; left; reflexivity).
  destruct (t - last_time st k >=? c) eqn:E; [apply Z.geb_le in E; lia|].
  rewrite IH by (intros t' Ht'; apply H; right; exact Ht'). reflexivity.
Qed.

Lemma run_burst_window c st k ts b :
  (forall t, In t ts -> b <= t < b + c) ->
  (fst (run_burst c st k ts) <= 1)%nat /\
  (forall t0 rest, ts = t0 :: rest -> c <= t0 - last_time st k ->
   fst (run_burst c st k ts) = 1%nat).
Proof.
  revert st. induction ts as [|t ts IH]; intros st H.
  - split; [simpl; lia | discriminate].
  - assert (Hrest : forall t', In t' ts -> b <= t' < b + c)
      by (intros t' Ht'; apply H; right; exact Ht').
    assert (Ht : b <= t < b + c) by (apply H; left; reflexivity).
    assert (Hsilent : run_burst c (set_time st k t) k ts = (0%nat, set_time st k t)).
    { apply run_burst_silent. intros t' Ht'. rewrite last_time_set.
      specialize (Hrest t' Ht'). lia. }
    simpl. unfold should_send_notification.
    destruct (t - last_time st k >=? c) eqn:E.
    + rewrite Hsilent. simpl. split; [lia|reflexivity].
    + destruct (IH st Hrest) as [Hle _].
      destruct (run_burst c st k ts) as [n st2]. simpl in *. split; [exact Hle|].
      intros t0 rest Heq Hc. injection Heq as -> ->.
      rewrite Z.geb_leb, Z.leb_gt in E. lia.
Qed.

(** C2 (counterexample): a previous emission at 100 leaves a burst at 110
    and 115, inside one 30-second window, with no notification at all. *)
Lemma throttle_burst_after_recent_emission_cex :
  run_burst cooldown [("blacklist_join_111", 100)] "blacklist_join_111" [110; 115] =
    (0%nat, [("blacklist_join_111", 100)]).
Proof. reflexivity. Qed.

(** C2 (amended): [should_send_notification] answers true and records
    [now] exactly when [now - last >= 30] (a key never sent reads 0); a burst
    of calls for one key whose times lie in one window [b, b + 30) sends at
    most one notification, and exactly one when its first event comes at
    least 30 seconds after the key's previous emission. *)
Theorem throttle_one_per_window :
  (forall st now k,
     should_send_notification cooldown st now k =
       (if now - last_time st k >=? 30 then (true, set_time st k now) else (false, st)) /\
     last_time (set_time st k now) k = now /\
     last_time [] k = 0) /\
  (forall st k ts b,
     (forall t, In t ts -> b <= t < b + 30) ->
     (fst (run_burst cooldown st k ts) <= 1)%nat /\
     (forall t0 rest, ts = t0 :: rest -> 30 <= t0 - last_time st k ->
      fst (run_burst cooldown st k ts) = 1%nat)).
Proof.
  split.
  - intros st now k. split; [reflexivity|split; [apply last_time_set|reflexivity]].
  - intros st k ts b H. exact (run_burst_window cooldown st k ts b H).
Qed.

Lemma throttle_one_per_window_witness :
  fst (run_burst cooldown [] "blacklist_join_111" [5000; 5001; 5020]) = 1%nat.
Proof.
  apply (proj2 (proj2 throttle_one_per_window [] "blacklist_join_111"
                  [5000; 5001; 5020] 5000 ltac:(simpl; intros t Ht; lia))
           5000 [5001; 5020] eq_refl).
  simpl. lia.
Defined.

(** ** Request retries *)
Section Retry.
Import Adapter.

Variables (cfg : config) (net : nat -> attempt) (ep : string) (data : list (string * pyval)).

Lemma request_loop_step fuel a :
  request_loop cfg net ep data (S fuel) a =
  (let retry := (a <? max_retries cfg)%nat in
   let again :=
     let (r, tr) := request_loop cfg net ep data fuel (S a) in
     (r, Sleep (retry_delay cfg) :: tr) in
   let (r, tr) :=
     match net a with
     | HttpResp st b =>
         if 400 <=? st then
           match b with
           | BJsonOther => (RRaise AttributeError, [])
           | _ => if (500 <=? st) && retry then again else (RErr (http_error st b), [])
           end
         else
           match b with
           | BEmpty => (ROk (from_dict (mk_json None None None)), [])
           | BNotJson => (RErr (OneBotResponseError MJsonFail None), [])
           | BJson j => (ROk (from_dict j), [])
           | BJsonOther => (RRaise AttributeError, [])
           end
     | ConnectorErr => if retry then again else (RErr (OneBotNetworkError MConnect), [])
     | TimeoutErr => if retry then again else (RErr (OneBotTimeoutError MTimeout), [])
     | OtherClientErr => if retry then again else (RErr (OneBotApiError MClient), [])
     end in
   (r, Request ep data :: tr)).
Proof. reflexivity. Qed.


End Retry.




(** C5 (code bug): an error response whose body is JSON but not an object
    (e.g. [[]] or [null]) makes [error_data.get] raise [AttributeError],
    which no [except] clause of [_make_request] catches: the call ends after
    one request, with no retry and no [OneBotApiError]; a success status
    with such a body raises the same way in [ApiResponse.from_dict]. *)
Theorem make_request_non_object_body_uncaught :
  forall cfg net ep data st,
  net 0%nat = Adapter.HttpResp st Adapter.BJsonOther ->
  Adapter.make_request cfg false net ep data =
    (Adapter.RRaise Adapter.AttributeError, [Adapter.Request ep data]).
Proof.
  intros cfg net ep data st H. unfold Adapter.make_request.
  rewrite request_loop_step, H. cbv zeta. destruct (400 <=? st); reflexivity.
Qed.

Lemma make_request_non_object_body_uncaught_witness :
  Adapter.make_request Sample.cfg3 false
    (Sample.net_always (Adapter.HttpResp 500 Adapter.BJsonOther)) "set_group_kick" [] =
    (Adapter.RRaise Adapter.AttributeError, [Adapter.Request "set_group_kick" []]) /\
  Ref.count_requests
    (snd (Adapter.make_request Sample.cfg3 false
            (Sample.net_always (Adapter.HttpResp 500 Adapter.BJsonOther)) "set_group_kick" []))
  = 1%nat.
Proof.
  assert (H := make_request_non_object_body_uncaught Sample.cfg3
                 (Sample.net_always (Adapter.HttpResp 500 Adapter.BJsonOther))
                 "set_group_kick" [] 500 eq_refl).
  split; [exact H|]. rewrite H. reflexivity.
Defined.

(** ** Id conversion in the id-taking adapter methods *)

Lemma make_request_open_first cfg net ep data :
  exists rest, snd (Adapter.make_request cfg false net ep data) = Adapter.Request ep data :: rest.
Proof.
  unfold Adapter.make_request. rewrite request_loop_step. cbv zeta.
  match goal with |- context [let (r, tr) := ?x in (r, Adapter.Request ep data :: tr)] =>
    destruct x as [r tr] end.
  exists tr. reflexivity.
Qed.

Lemma request_with_ids_raise cfg closed net ep fs :
  Adapter.build_data fs = None ->
  Adapter.request_with_ids cfg closed net ep fs = (Adapter.CRaise Adapter.ValueError, []).
Proof. intros H. unfold Adapter.request_with_ids. rewrite H. reflexivity. Qed.

Lemma request_with_ids_first cfg net ep fs data :
  Adapter.build_data fs = Some data ->
  exists rest, snd (Adapter.request_with_ids cfg false net ep fs) = Adapter.Request ep data :: rest.
Proof.
  intros H. unfold Adapter.request_with_ids. rewrite H.
  destruct (make_request_open_first cfg net ep data) as [rest Hr]. exists rest.
  destruct (Adapter.make_request cfg false net ep data) as [r tr]. exact Hr.
Qed.

Lemma kick_group_member_of_request cfg closed net gid uid rej :
  snd (Adapter.kick_group_member cfg closed net gid uid rej) =
  snd (Adapter.request_with_ids cfg closed net "set_group_kick"
         [Adapter.FId "group_id" gid; Adapter.FId "user_id" uid;
          Adapter.FVal "reject_add_request" (Adapter.VBool rej)]).
Proof.
  unfold Adapter.kick_group_member.
  destruct (Adapter.request_with_ids _ _ _ _ _) as [o tr]. reflexivity.
Qed.

(** C6 (counterexample): an id that is not a number escapes as an uncaught
    [ValueError], not as a typed failure; ids that are not plain digit
    strings but that [int()] accepts, such as " 12" or the full-width
    digits "１２", are sent over the wire. *)
Lemma kick_group_member_ids_cex :
  Adapter.kick_group_member Sample.cfg3 false Sample.net_ok "111" "abc" false =
    (Adapter.KRaise Adapter.ValueError, []) /\
  Py.isdigit " 12" = false /\
  snd (Adapter.kick_group_member Sample.cfg3 false Sample.net_ok "111" " 12" false) =
    [Adapter.Request "set_group_kick"
       [("group_id", Adapter.VInt 111); ("user_id", Adapter.VInt 12);
        ("reject_add_request", Adapter.VBool false)]] /\
  snd (Adapter.send_group_message Sample.cfg3 false Sample.net_ok "１２" "hi") =
    [Adapter.Request "send_group_msg"
       [("group_id", Adapter.VInt 12); ("message", Adapter.VStr "hi")]].
Proof. split; [reflexivity|split; [reflexivity|split; reflexivity]]. Qed.

(** C6 (amended): each of the six id-taking methods of the adapter converts
    its ids with [int()] while building its request data, before any I/O;
    when a conversion fails, the method raises [ValueError] to its caller
    (no [except] clause catches it, no (False, message) result) with no
    request sent; when the conversions succeed, the converted integers are
    what the first request carries. *)
Theorem id_operations_int_conversion :
  forall cfg closed net (group_id user_id message : string) (reject_add_request : bool),
  (Py.int user_id = None ->
   Adapter.send_private_message cfg closed net user_id message =
     (Adapter.CRaise Adapter.ValueError, []) /\
   Adapter.get_user_info cfg closed net user_id = (Adapter.CRaise Adapter.ValueError, [])) /\
  (Py.int group_id = None ->
   Adapter.send_group_message cfg closed net group_id message =
     (Adapter.CRaise Adapter.ValueError, []) /\
   Adapter.get_group_member_list cfg closed net group_id =
     (Adapter.CRaise Adapter.ValueError, []) /\
   Adapter.get_group_info cfg closed net group_id = (Adapter.CRaise Adapter.ValueError, [])) /\
  ((Py.int group_id = None \/ Py.int user_id = None) ->
   Adapter.kick_group_member cfg closed net group_id user_id reject_add_request =
     (Adapter.KRaise Adapter.ValueError, [])) /\
  (forall u, Py.int user_id = Some u ->
   (exists rest,
      snd (Adapter.send_private_message cfg false net user_id message) =
      Adapter.Request "send_private_msg"
        [("user_id", Adapter.VInt u); ("message", Adapter.VStr message)] :: rest) /\
   (exists rest,
      snd (Adapter.get_user_info cfg false net user_id) =
      Adapter.Request "get_stranger_info" [("user_id", Adapter.VInt u)] :: rest)) /\
  (forall g, Py.int group_id = Some g ->
   (exists rest,
      snd (Adapter.send_group_message cfg false net group_id message) =
      Adapter.Request "send_group_msg"
        [("group_id", Adapter.VInt g); ("message", Adapter.VStr message)] :: rest) /\
   (exists rest,
      snd (Adapter.get_group_member_list cfg false net group_id) =
      Adapter.Request "get_group_member_list" [("group_id", Adapter.VInt g)] :: rest) /\
   (exists rest,
      snd (Adapter.get_group_info cfg false net group_id) =
      Adapter.Request "get_group_info" [("group_id", Adapter.VInt g)] :: rest)) /\
  (forall g u, Py.int group_id = Some g -> Py.int user_id = Some u ->
   exists rest,
     snd (Adapter.kick_group_member cfg false net group_id user_id reject_add_request) =
     Adapter.Request "set_group_kick"
       [("group_id", Adapter.VInt g); ("user_id", Adapter.VInt u);
        ("reject_add_request", Adapter.VBool reject_add_request)] :: rest).
Proof.
  intros cfg closed net gid uid m rej.
  split; [|split; [|split; [|split; [|split]]]].
  - intros H. unfold Adapter.send_private_message, Adapter.get_user_info.
    split; apply request_with_ids_raise; simpl; rewrite H; reflexivity.
  - intros H.
    unfold Adapter.send_group_message, Adapter.get_group_member_list, Adapter.get_group_info.
    split; [|split]; apply request_with_ids_raise; simpl; rewrite H; reflexivity.
  - intros Hn. unfold Adapter.kick_group_member.
    rewrite request_with_ids_raise; [reflexivity|]. simpl.
    destruct Hn as [H|H]; rewrite H; [reflexivity|].
    destruct (Py.int gid); reflexivity.
  - intros u H. unfold Adapter.send_private_message, Adapter.get_user_info.
    split; apply request_with_ids_first; simpl; rewrite H; reflexivity.
  - intros g H.
    unfold Adapter.send_group_message, Adapter.get_group_member_list, Adapter.get_group_info.
    split; [|split]; apply request_with_ids_first; simpl; rewrite H; reflexivity.
  - intros g u Hg Hu. rewrite kick_group_member_of_request.
    apply request_with_ids_first. simpl. rewrite Hg, Hu. reflexivity.
Qed.

Lemma id_operations_int_conversion_witness :
  Adapter.send_private_message Sample.cfg3 false Sample.net_ok "abc" "hi" =
    (Adapter.CRaise Adapter.ValueError, []) /\
  Adapter.get_group_info Sample.cfg3 false Sample.net_ok "" =
    (Adapter.CRaise Adapter.ValueError, []) /\
  Adapter.kick_group_member Sample.cfg3 false Sample.net_ok "111" "abc" false =
    (Adapter.KRaise Adapter.ValueError, []) /\
  (exists rest,
     snd (Adapter.get_user_info Sample.cfg3 false Sample.net_ok "-5") =
     Adapter.Request "get_stranger_info" [("user_id", Adapter.VInt (-5))] :: rest) /\
  (exists rest,
     snd (Adapter.get_group_member_list Sample.cfg3 false Sample.net_ok "１２") =
     Adapter.Request "get_group_member_list" [("group_id", Adapter.VInt 12)] :: rest) /\
  (exists rest,
     snd (Adapter.kick_group_member Sample.cfg3 false Sample.net_ok "111" " 12" false) =
     Adapter.Request "set_group_kick"
       [("group_id", Adapter.VInt 111); ("user_id", Adapter.VInt 12);
        ("reject_add_request", Adapter.VBool false)] :: rest).
Proof.
  split; [|split; [|split; [|split; [|split]]]].
  - apply (proj1 (proj1 (id_operations_int_conversion Sample.cfg3 false Sample.net_ok
                           "111" "abc" "hi" false) eq_refl)).
  - apply (proj2 (proj2 (proj1 (proj2 (id_operations_int_conversion Sample.cfg3 false
             Sample.net_ok "" "1" "hi" false)) eq_refl))).
  - apply (proj1 (proj2 (proj2 (id_operations_int_conversion Sample.cfg3 false
             Sample.net_ok "111" "abc" "hi" false)))).
    right. reflexivity.
  - apply (proj2 (proj1 (proj2 (proj2 (proj2 (id_operations_int_conversion Sample.cfg3 false
             Sample.net_ok "111" "-5" "hi" false)))) (-5) eq_refl)).
  - apply (proj1 (proj2 (proj1 (proj2 (proj2 (proj2 (proj2 (id_operations_int_conversion
             Sample.cfg3 false Sample.net_ok "１２" "1" "hi" false))))) 12 eq_refl))).
  - apply (proj2 (proj2 (proj2 (proj2 (proj2 (id_operations_int_conversion Sample.cfg3 false
             Sample.net_ok "111" " 12" "hi" false))))) 111 12); reflexivity.
Defined.

(** ** The leave handler *)

Lemma leave_reason_some sub_type :
  sub_type <> "kick_me" -> exists reason, leave_reason sub_type = Some reason.
Proof.
  intros Hne. unfold leave_reason.
  destruct (String.eqb sub_type "leave"); [eauto|].
  destruct (String.eqb sub_type "kick"); [eauto|].
  rewrite (proj2 (String.eqb_neq sub_type "kick_me") Hne). eauto.
Qed.

Lemma leave_reason_truthy sub_type reason :
  leave_reason sub_type = Some reason -> Py.truthy reason = true.
Proof.
  unfold leave_reason.
  destruct (String.eqb sub_type "leave"); [intros [= <-]; reflexivity|].
  destruct (String.eqb sub_type "kick"); [intros [= <-]; reflexivity|].
  destruct (String.eqb sub_type "kick_me"); [discriminate|].
  intros [= <-]. reflexivity.
Qed.

(** C7: a kick_me departure changes nothing and yields nothing. Any other
    departure of a user not yet blacklisted (globally or for the group)
    either appends exactly one row [(user, group, reason, "system_auto")]
    to the store and composes the success text, or leaves the store as it
    was and composes the failure text (only when the store raises or the
    user id or reason fails validation); a user already blacklisted gets
    the already-listed text. The text is yielded when the cooldown of
    ["member_leave_" ++ group] allows it. *)
Theorem leave_auto_blacklist :
  forall d ns now group_id user_id sub_type,
  (sub_type = "kick_me" ->
   handle_member_leave d ns now group_id user_id sub_type = (d, ns, [])) /\
  (sub_type <> "kick_me" -> Py.truthy group_id = true ->
   exists reason ok ns',
     leave_reason sub_type = Some reason /\
     should_send_notification cooldown ns now ("member_leave_" ++ group_id) = (ok, ns') /\
     let base := "用户 " ++ user_id ++ " 离开了群聊" in
     let out := fun txt => if ok then [ActSend [Plain (base ++ txt)]] else [] in
     (Service.is_user_blacklisted d user_id (Some group_id) = false ->
      (handle_member_leave d ns now group_id user_id sub_type =
         (fst (Store.add_to_blacklist d user_id "system_auto" (Some group_id) reason),
          ns', out "，已自动加入群黑名单") /\
       Store.rows (fst (Store.add_to_blacklist d user_id "system_auto" (Some group_id) reason)) =
         (Store.rows d ++
          [Store.mk_row (Store.next_id d) user_id (Some group_id) reason "system_auto"
                        (Store.clock d) (Store.clock d)])%list) \/
      (handle_member_leave d ns now group_id user_id sub_type =
         (d, ns', out "，加入黑名单失败") /\
       (Store.down d = true \/ Py.isdigit user_id = false \/
        Service.validate_input_length reason 200 = false))) /\
     (Service.is_user_blacklisted d user_id (Some group_id) = true ->
      handle_member_leave d ns now group_id user_id sub_type =
        (d, ns', out "，已在群黑名单中"))).
Proof.
  intros d ns now g u sub. split.
  - intros ->. reflexivity.
  - intros Hne Hg.
    destruct (leave_reason_some sub Hne) as [reason Hr].
    destruct (should_send_notification cooldown ns now ("member_leave_" ++ g))
      as [ok ns'] eqn:Hs.
    exists reason, ok, ns'. split; [exact Hr|]. split; [reflexivity|].
    cbv zeta. unfold handle_member_leave. rewrite Hr, (leave_reason_truthy _ _ Hr), Hs.
    unfold Service.is_user_blacklisted. split; intros Hbl; rewrite Hbl; [|reflexivity].
    unfold Service.add_user_to_blacklist. rewrite Hbl.
    destruct (Py.isdigit u) eqn:Hd; [|right; split; [reflexivity|auto]].
    destruct (Service.validate_input_length reason 200) eqn:Hv;
      [|right; split; [reflexivity|auto]].
    unfold Store.add_to_blacklist. destruct (Store.down d) eqn:Hdown;
      [right; split; [reflexivity|auto]|].
    left. split; [reflexivity|]. simpl.
    rewrite filter_no_clash; [reflexivity|].
    unfold Store.is_in_blacklist in Hbl. rewrite Hdown, Hg in Hbl.
    destruct (existsb (Store.global_match u) (Store.rows d)); [discriminate|exact Hbl].
Qed.

Lemma leave_auto_blacklist_witness :
  handle_member_leave Sample.empty_db [] 1000 "333" "222" "kick_me" = (Sample.empty_db, [], []) /\
  exists reason (ok : bool) (ns' : notif_state),
    leave_reason "kick" = Some reason /\
    ((handle_member_leave Sample.empty_db [] 1000 "333" "222" "kick" =
        (fst (Store.add_to_blacklist Sample.empty_db "222" "system_auto" (Some "333") reason),
         ns', if ok then [ActSend [Plain ("用户 222 离开了群聊" ++ "，已自动加入群黑名单")]]
              else []) /\
      Store.rows (fst (Store.add_to_blacklist Sample.empty_db "222" "system_auto"
                         (Some "333") reason)) =
        [Store.mk_row 100 "222" (Some "333") reason "system_auto" 5000 5000]) \/
     (handle_member_leave Sample.empty_db [] 1000 "333" "222" "kick" =
        (Sample.empty_db, ns', if ok then [ActSend [Plain ("用户 222 离开了群聊" ++ "，加入黑名单失败")]]
                               else []) /\
      (Store.down Sample.empty_db = true \/ Py.isdigit "222" = false \/
       Service.validate_input_length reason 200 = false))).
Proof.
  split.
  - apply (proj1 (leave_auto_blacklist Sample.empty_db [] 1000 "333" "222" "kick_me")).
    reflexivity.
  - pose proof (proj2 (leave_auto_blacklist Sample.empty_db [] 1000 "333" "222" "kick"))
      as H0.
    assert (Hne : "kick" <> "kick_me") by discriminate.
    specialize (H0 Hne eq_refl).
    destruct H0 as (reason & ok & ns' & Hr & _ & H).
    cbv zeta in H. destruct H as [Hfree _].
    exists reason, ok, ns'. split; [exact Hr|].
    exact (Hfree eq_refl).
Defined.

(** * Further properties of the plugin *)

(** ** List and table lemmas *)

Lemma opt_eqb_true a b : Store.opt_eqb a b = true -> a = b.
Proof.
  destruct a as [x|], b as [y|]; simpl; try discriminate; [|reflexivity].
  intros H. apply String.eqb_eq in H. subst. reflexivity.
Qed.


Lemma find_app {A} (f : A -> bool) (l1 l2 : list A) :
  find f (l1 ++ l2) = match find f l1 with Some x => Some x | None => find f l2 end.
Proof.
  induction l1 as [|a l1 IH]; simpl; [reflexivity|].
  destruct (f a); [reflexivity|exact IH].
Qed.

(** Filtering with a test every match of [f] passes does not change what
    [find f] finds. *)
Lemma find_filter_implied {A} (f h : A -> bool) (l : list A) :
  (forall x, f x = true -> h x = true) -> find f (filter h l) = find f l.
Proof.
  intros Hi. induction l as [|a l IH]; simpl; [reflexivity|].
  destruct (h a) eqn:Eh; simpl.
  - destruct (f a); [reflexivity|exact IH].
  - destruct (f a) eqn:Ef; [rewrite (Hi a Ef) in Eh; discriminate|exact IH].
Qed.

Lemma filter_filter_implied {A} (f h : A -> bool) (l : list A) :
  (forall x, f x = true -> h x = true) -> filter f (filter h l) = filter f l.
Proof.
  intros Hi. induction l as [|a l IH]; simpl; [reflexivity|].
  destruct (h a) eqn:Eh; simpl.
  - destruct (f a); [f_equal|]; exact IH.
  - destruct (f a) eqn:Ef; [rewrite (Hi a Ef) in Eh; discriminate|exact IH].
Qed.

Lemma filter_negb_self {A} (f : A -> bool) (l : list A) :
  filter f (filter (fun x => negb (f x)) l) = [].
Proof.
  induction l as [|a l IH]; simpl; [reflexivity|].
  destruct (f a) eqn:E; simpl; [exact IH|]. rewrite E. exact IH.
Qed.

Lemma filter_none_false {A} (f : A -> bool) (l : list A) :
  existsb f l = false -> filter f l = [].
Proof.
  induction l as [|a l IH]; simpl; [reflexivity|].
  destruct (f a); simpl; [discriminate|exact IH].
Qed.

Lemma filter_negb_none {A} (f : A -> bool) (l : list A) :
  existsb f l = false -> filter (fun x => negb (f x)) l = l.
Proof.
  induction l as [|a l IH]; simpl; [reflexivity|].
  destruct (f a); simpl; [discriminate|]. intros H. f_equal. exact (IH H).
Qed.

Lemma filter_comm {A} (f h : A -> bool) (l : list A) :
  filter f (filter h l) = filter h (filter f l).
Proof.
  induction l as [|a l IH]; simpl; [reflexivity|].
  destruct (h a) eqn:Eh, (f a) eqn:Ef; simpl; rewrite ?Eh, ?Ef, IH; reflexivity.
Qed.

Lemma length_filter_filter_le {A} (f h : A -> bool) (l : list A) :
  (length (filter f (filter h l)) <= length (filter f l))%nat.
Proof.
  induction l as [|a l IH]; simpl; [lia|].
  destruct (h a); simpl; destruct (f a); simpl; lia.
Qed.

Lemma existsb_find_some {A} (f : A -> bool) (l : list A) x :
  find f l = Some x -> existsb f l = true.
Proof.
  intros H. apply find_some in H as [Hin Hf].
  apply existsb_exists. eauto.
Qed.

(** ** Blacklist table *)

(** A global row makes the user blacklisted for every group. *)
Lemma global_listed_covers d u g :
  Store.is_in_blacklist d u None = true -> Store.is_in_blacklist d u (Some g) = true.
Proof.
  unfold Store.is_in_blacklist.
  destruct (Store.down d); [discriminate|].
  destruct (existsb (Store.global_match u) (Store.rows d)); [reflexivity|discriminate].
Qed.

Lemma add_to_blacklist_listed d u by_ g rsn :
  Store.down d = false ->
  (match g with Some g' => Py.truthy g' = true | None => True end) ->
  Store.is_in_blacklist (fst (Store.add_to_blacklist d u by_ g rsn)) u g = true.
Proof.
  intros Hd Hg. unfold Store.add_to_blacklist. rewrite Hd.
  unfold Store.is_in_blacklist. simpl. rewrite existsb_app. simpl.
  unfold Store.global_match at 2. simpl. rewrite String.eqb_refl.
  destruct g as [g'|]; simpl.
  - rewrite Hg, existsb_app. simpl. unfold Store.group_match at 2. simpl.
    rewrite !String.eqb_refl. simpl. rewrite !orb_true_r.
    destruct (_ || _); reflexivity.
  - rewrite orb_true_r. reflexivity.
Qed.

(** X1: adding a row makes the user blacklisted for that scope. *)
Theorem add_to_blacklist_then_listed d u by_ g rsn :
  Store.down d = false ->
  (match g with Some g' => Py.truthy g' = true | None => True end) ->
  snd (Store.add_to_blacklist d u by_ g rsn) = true /\
  Store.is_in_blacklist (fst (Store.add_to_blacklist d u by_ g rsn)) u g = true.
Proof.
  intros Hd Hg. split.
  - unfold Store.add_to_blacklist. rewrite Hd. reflexivity.
  - exact (add_to_blacklist_listed d u by_ g rsn Hd Hg).
Qed.

Lemma add_to_blacklist_then_listed_witness :
  snd (Store.add_to_blacklist Sample.empty_db "999" "10001" (Some "111") "spam") = true /\
  Store.is_in_blacklist (fst (Store.add_to_blacklist Sample.empty_db "999" "10001" (Some "111") "spam"))
    "999" (Some "111") = true.
Proof. apply add_to_blacklist_then_listed; reflexivity. Defined.

Lemma find_none_existsb {A} (f : A -> bool) (l : list A) :
  find f l = None <-> existsb f l = false.
Proof.
  split.
  - intros H. destruct (existsb f l) eqn:E; [|reflexivity].
    destruct (existsb_find f l E) as [x Hx]. congruence.
  - apply existsb_find_none.
Qed.

(** X2: [get_user_blacklist_info] finds a row exactly when [is_in_blacklist]
    says the user is blacklisted, for every store and scope. *)
Theorem blacklist_info_iff_listed d u g :
  Store.get_user_blacklist_info d u g <> None <-> Store.is_in_blacklist d u g = true.
Proof.
  unfold Store.get_user_blacklist_info, Store.is_in_blacklist.
  destruct (Store.down d); [split; [intros H; congruence|discriminate]|].
  assert (Hg : forall f, find f (Store.rows d) <> None <-> existsb f (Store.rows d) = true).
  { intros f. rewrite <- not_false_iff_true, find_none_existsb. tauto. }
  destruct g as [g'|]; [destruct (Py.truthy g')|].
  - destruct (find (Store.group_match u g') (Store.rows d)) eqn:E1.
    + split; [intros _|discriminate].
      rewrite (existsb_find_some _ _ _ E1).
      destruct (existsb _ _); reflexivity.
    + rewrite find_none_existsb in E1. rewrite E1.
      destruct (existsb (Store.global_match u) (Store.rows d)) eqn:E2.
      * split; [reflexivity|]. intros _. apply Hg. exact E2.
      * split; [intros H; apply Hg in H; congruence|discriminate].
  - rewrite Hg. destruct (existsb _ _); split; congruence.
  - rewrite Hg. destruct (existsb _ _); split; congruence.
Qed.

(** X3: a global row blacklists the user for every group. *)
Theorem global_entry_covers_every_group d u g :
  Store.is_in_blacklist d u None = true -> Store.is_in_blacklist d u (Some g) = true.
Proof. apply global_listed_covers. Qed.

Lemma remove_hit_match u g r :
  (String.eqb (Store.user_id r) u && Store.opt_eqb (Store.group_id r) g) = true ->
  Store.user_id r = u /\ Store.group_id r = g.
Proof.
  intros H. apply andb_prop in H as [H1 H2].
  apply String.eqb_eq in H1. apply opt_eqb_true in H2. auto.
Qed.

Lemma global_entry_covers_every_group_witness :
  Store.is_in_blacklist Sample.both_db "999" None = true /\
  Store.is_in_blacklist Sample.both_db "999" (Some "222") = true.
Proof.
  split; [reflexivity|]. apply global_entry_covers_every_group. reflexivity.
Defined.

(** X4: [remove_from_blacklist] deletes every row of the pair (all duplicate
    global rows included), keeps every other pair's rows, and reports
    whether it deleted anything. *)
Theorem remove_from_blacklist_spec d u g :
  Store.down d = false ->
  (snd (Database.remove_from_blacklist d u g) = true <-> Store.rows_for d u g <> []) /\
  Store.rows_for (fst (Database.remove_from_blacklist d u g)) u g = [] /\
  (forall u' g', (u' <> u \/ g' <> g) ->
     Store.rows_for (fst (Database.remove_from_blacklist d u g)) u' g' = Store.rows_for d u' g') /\
  Store.welcomes (fst (Database.remove_from_blacklist d u g)) = Store.welcomes d.
Proof.
  intros Hd. unfold Database.remove_from_blacklist, Store.rows_for. rewrite Hd. simpl.
  split; [|split; [|split]].
  - rewrite <- not_false_iff_true.
    split; intros H1 H2; apply H1.
    + destruct (existsb _ _) eqn:E; [|reflexivity].
      apply existsb_exists in E as [r [Hin Hr]].
      assert (Hr' : In r (filter (fun r => String.eqb (Store.user_id r) u &&
                                          Store.opt_eqb (Store.group_id r) g) (Store.rows d)))
        by (apply filter_In; auto).
      rewrite H2 in Hr'. destruct Hr'.
    + apply filter_none_false. exact H2.
  - apply filter_negb_self.
  - intros u' g' Hne. apply filter_filter_implied.
    intros r Hr. apply remove_hit_match in Hr as [-> ->].
    apply negb_true_iff. destruct (String.eqb u' u) eqn:E1; [|reflexivity].
    apply String.eqb_eq in E1. subst. simpl.
    destruct (Store.opt_eqb g' g) eqn:E2; [|reflexivity].
    apply opt_eqb_true in E2. subst. destruct Hne as [[]|[]]; reflexivity.
  - reflexivity.
Qed.

Lemma remove_from_blacklist_spec_witness :
  Store.rows_for (fst (Database.remove_from_blacklist Sample.both_db "999" None)) "999" None = [].
Proof. apply (remove_from_blacklist_spec Sample.both_db "999" None). reflexivity. Defined.

(** ** Welcome table *)

Lemma find_key_filter_other {B} (g g' : string) (l : list (string * B)) :
  g' <> g ->
  find (fun p => String.eqb (fst p) g') (filter (fun p => negb (String.eqb (fst p) g)) l) =
  find (fun p => String.eqb (fst p) g') l.
Proof.
  intros Hne. apply find_filter_implied. intros [k v] H. simpl in *.
  apply String.eqb_eq in H. subst. apply negb_true_iff, String.eqb_neq. exact Hne.
Qed.

Lemma find_key_filter_self {B} (g : string) (l : list (string * B)) :
  find (fun p => String.eqb (fst p) g) (filter (fun p => negb (String.eqb (fst p) g)) l) = None.
Proof.
  apply find_none_existsb. apply not_true_iff_false. intros H.
  apply existsb_exists in H as [p [Hin Hp]]. apply filter_In in Hin as [_ Hn].
  rewrite Hp in Hn. discriminate.
Qed.

Lemma set_welcome_message_self d g m :
  Store.down d = false ->
  Store.get_welcome_message (fst (Database.set_welcome_message d g m)) g = Some m.
Proof.
  intros Hd. unfold Database.set_welcome_message, Store.get_welcome_message.
  rewrite Hd. simpl.
  rewrite find_app, find_key_filter_self. simpl. rewrite String.eqb_refl. reflexivity.
Qed.

(** X5: after [set_welcome_message g m] the group's welcome text is [m] and
    every other group's text is unchanged. *)
Theorem set_welcome_message_get d g m :
  Store.down d = false ->
  snd (Database.set_welcome_message d g m) = true /\
  Store.get_welcome_message (fst (Database.set_welcome_message d g m)) g = Some m /\
  (forall g', g' <> g ->
     Store.get_welcome_message (fst (Database.set_welcome_message d g m)) g' =
     Store.get_welcome_message d g').
Proof.
  intros Hd. split; [|split].
  - unfold Database.set_welcome_message. rewrite Hd. reflexivity.
  - apply set_welcome_message_self. exact Hd.
  - unfold Database.set_welcome_message, Store.get_welcome_message. rewrite Hd. simpl.
    intros g' Hne. rewrite find_app, find_key_filter_other by exact Hne.
    destruct (find _ (Store.welcomes d)); [reflexivity|]. simpl.
    rewrite (proj2 (String.eqb_neq g g')) by congruence. reflexivity.
Qed.

Lemma set_welcome_message_get_witness :
  Store.get_welcome_message (fst (Database.set_welcome_message Sample.empty_db "111" "hi")) "111"
  = Some "hi".
Proof. apply (set_welcome_message_get Sample.empty_db "111" "hi"). reflexivity. Defined.

(** X6: [delete_welcome_message g] reports whether the group had a welcome
    text, after it the group has none, and other groups keep theirs. *)
Theorem delete_welcome_message_spec d g :
  Store.down d = false ->
  (snd (Database.delete_welcome_message d g) = true <-> Store.get_welcome_message d g <> None) /\
  Store.get_welcome_message (fst (Database.delete_welcome_message d g)) g = None /\
  (forall g', g' <> g ->
     Store.get_welcome_message (fst (Database.delete_welcome_message d g)) g' =
     Store.get_welcome_message d g').
Proof.
  intros Hd. unfold Database.delete_welcome_message, Store.get_welcome_message.
  rewrite Hd. simpl. split; [|split].
  - rewrite <- not_false_iff_true, <- find_none_existsb.
    destruct (find _ _); simpl; split; congruence.
  - rewrite find_key_filter_self. reflexivity.
  - intros g' Hne. rewrite find_key_filter_other by exact Hne. reflexivity.
Qed.

Lemma delete_welcome_message_spec_witness :
  Store.get_welcome_message
    (fst (Database.delete_welcome_message (Store.mk_db [] [("111", "hi")] 1 0 false) "111")) "111"
  = None.
Proof.
  apply (delete_welcome_message_spec (Store.mk_db [] [("111", "hi")] 1 0 false) "111").
  reflexivity.
Defined.

(** ** Group switch *)

Lemma set_group_enabled_get st g b :
  Database.s_down st = false ->
  Database.is_group_enabled (fst (Database.set_group_enabled st g b)) g = b.
Proof.
  intros Hd. unfold Database.set_group_enabled, Database.is_group_enabled.
  rewrite Hd. simpl. rewrite find_app, find_key_filter_self. simpl.
  rewrite String.eqb_refl. reflexivity.
Qed.

(** X7: with a working store, [set_group_enabled g b] succeeds, then
    [is_group_enabled g] is [b] and other groups are unchanged; a group never
    set reads as enabled; when the store raises, the switch fails and every
    group reads as enabled. *)
Theorem group_switch_spec st g b :
  (Database.s_down st = false ->
   snd (Database.set_group_enabled st g b) = true /\
   Database.is_group_enabled (fst (Database.set_group_enabled st g b)) g = b /\
   (forall g', g' <> g ->
      Database.is_group_enabled (fst (Database.set_group_enabled st g b)) g' =
      Database.is_group_enabled st g') /\
   (existsb (fun p => String.eqb (fst p) g) (Database.enabled_rows st) = false ->
      Database.is_group_enabled st g = true)) /\
  (Database.s_down st = true ->
   Database.set_group_enabled st g b = (st, false) /\ Database.is_group_enabled st g = true).
Proof.
  split; intros Hd.
  - split; [unfold Database.set_group_enabled; rewrite Hd; reflexivity|].
    split; [exact (set_group_enabled_get st g b Hd)|split].
    + intros g' Hne. unfold Database.set_group_enabled, Database.is_group_enabled.
      rewrite Hd. simpl. rewrite find_app, find_key_filter_other by exact Hne.
      destruct (find _ (Database.enabled_rows st)) as [[k v]|]; [reflexivity|]. simpl.
      rewrite (proj2 (String.eqb_neq g g')) by congruence. reflexivity.
    + intros Hn. unfold Database.is_group_enabled. rewrite Hd.
      rewrite (existsb_find_none _ _ Hn). reflexivity.
  - unfold Database.set_group_enabled, Database.is_group_enabled. rewrite Hd. auto.
Qed.

Lemma group_switch_spec_witness :
  Database.is_group_enabled
    (fst (Database.set_group_enabled (Database.mk_settings [] false) "111" false)) "111" = false.
Proof.
  apply (proj1 (group_switch_spec (Database.mk_settings [] false) "111" false) eq_refl).
Defined.

(** ** [str.strip()] *)

Lemma lstrip_go_suffix encs f l : exists n, PyText.lstrip_go encs f l = skipn n l.
Proof.
  revert l. induction f as [|f IH]; intros l; simpl.
  - exists O. reflexivity.
  - destruct (find _ encs) as [e|].
    + destruct (IH (skipn (length e) l)) as [n Hn]. rewrite Hn, skipn_skipn. eauto.
    + exists O. reflexivity.
Qed.

Lemma list_prefix_length p l : PyText.list_prefix p l = true -> (length p <= length l)%nat.
Proof.
  revert l. induction p as [|a p IH]; intros [|b l]; simpl; try lia; try discriminate.
  intros H. apply andb_prop in H as [_ H]. specialize (IH l H). lia.
Qed.

Lemma list_prefix_firstn p k l :
  PyText.list_prefix p (firstn k l) = true -> PyText.list_prefix p l = true.
Proof.
  revert k l. induction p as [|a p IH]; intros k l; [reflexivity|].
  destruct k as [|k], l as [|b l]; simpl; try discriminate.
  intros H. apply andb_prop in H as [H1 H2]. rewrite H1. exact (IH k l H2).
Qed.

(** With enough fuel, no encoding is left at the front. *)
Lemma lstrip_go_clean encs f l :
  (forall e, In e encs -> e <> []) -> (length l <= f)%nat ->
  forall e, In e encs -> PyText.list_prefix e (PyText.lstrip_go encs f l) = false.
Proof.
  intros Hne. revert l. induction f as [|f IH]; intros l Hl e He; simpl.
  - destruct l; [|simpl in Hl; lia].
    destruct e; [contradiction (Hne [] He); reflexivity|reflexivity].
  - destruct (find (fun e => PyText.list_prefix e l) encs) as [e0|] eqn:E.
    + apply find_some in E as [Hin0 Hp0]. apply IH; [|exact He].
      rewrite length_skipn. apply list_prefix_length in Hp0.
      destruct e0; [contradiction (Hne [] Hin0); reflexivity|simpl in Hp0 |- *; lia].
    + exact (find_none _ _ E e He).
Qed.

Lemma ws_encodings_nonempty e : In e PyText.ws_encodings -> e <> [].
Proof. intros H. repeat (destruct H as [<-|H]; [discriminate|]). destruct H. Qed.

(** The text [str.strip()] returns starts with no whitespace. *)
Lemma strip_no_leading_space s e :
  In e PyText.ws_encodings ->
  PyText.list_prefix e (list_ascii_of_string (PyText.strip s)) = false.
Proof.
  intros He. unfold PyText.strip, PyText.strip_list.
  rewrite list_ascii_of_string_of_list_ascii.
  set (y := PyText.lstrip_list PyText.ws_encodings (list_ascii_of_string s)).
  destruct (lstrip_go_suffix (map (@rev ascii) PyText.ws_encodings) (length (rev y)) (rev y))
    as [n Hn].
  unfold PyText.lstrip_list at 1. rewrite Hn, skipn_rev, rev_involutive.
  destruct (PyText.list_prefix e (firstn _ y)) eqn:E; [|reflexivity].
  apply list_prefix_firstn in E. rewrite <- E.
  apply lstrip_go_clean; [exact ws_encodings_nonempty|lia|exact He].
Qed.

(** ** Keyword table *)

(** X8: a keyword already in the table is refused and the table is left as
    it was; so [add_keyword] (and [KeywordService.add_keyword], which only
    adds validation before it) never stores two rows with the same keyword. *)
Theorem add_keyword_no_duplicates d k r :
  (existsb (fun x => String.eqb (Database.keyword x) k) (Database.kws d) = true ->
   Database.add_keyword d k r = (d, false) /\ Services.add_keyword d k r = (d, false)) /\
  (NoDup (map Database.keyword (Database.kws d)) ->
   NoDup (map Database.keyword (Database.kws (fst (Services.add_keyword d k r))))).
Proof.
  assert (Hdb : existsb (fun x => String.eqb (Database.keyword x) k) (Database.kws d) = true ->
                Database.add_keyword d k r = (d, false)).
  { intros H. unfold Database.add_keyword. rewrite H. destruct (Database.kw_down d); reflexivity. }
  split.
  - intros H. split; [exact (Hdb H)|]. unfold Services.add_keyword.
    destruct (negb _); [reflexivity|]. destruct (negb _); [reflexivity|].
    unfold Database.add_keyword. rewrite H. destruct (Database.kw_down d); reflexivity.
  - intros Hnd. unfold Services.add_keyword.
    destruct (negb _); [exact Hnd|]. destruct (negb _); [exact Hnd|].
    unfold Database.add_keyword. destruct (Database.kw_down d); [exact Hnd|].
    destruct (existsb _ _) eqn:E; [exact Hnd|]. simpl.
    rewrite map_app. simpl. apply NoDup_app; [exact Hnd|constructor; [intros []|constructor]|].
    intros a Ha [<-|[]]. apply in_map_iff in Ha as [x [Hx Hin]].
    assert (Hk : String.eqb (Database.keyword x) k = true) by (apply String.eqb_eq; exact Hx).
    assert (Hex : existsb (fun x => String.eqb (Database.keyword x) k) (Database.kws d) = true)
      by (apply existsb_exists; eauto).
    congruence.
Qed.

Lemma add_keyword_no_duplicates_witness :
  Services.add_keyword (Database.mk_kw_db [Database.mk_kw 1 "hi" "hello"] 2 false) "hi" "again"
  = (Database.mk_kw_db [Database.mk_kw 1 "hi" "hello"] 2 false, false).
Proof.
  apply (proj1 (add_keyword_no_duplicates
                  (Database.mk_kw_db [Database.mk_kw 1 "hi" "hello"] 2 false) "hi" "again")).
  reflexivity.
Defined.

Lemma unescape_truthy s : Py.truthy s = true -> Py.truthy (Services.unescape_newlines s) = true.
Proof.
  destruct s as [|c s]; [discriminate|]. intros _.
  unfold Services.unescape_newlines, Py.replace. cbn [Py.replace_go].
  destruct (prefix _ _); reflexivity.
Qed.

Lemma validate_truthy t n : Service.validate_input_length t n = true -> Py.truthy t = true.
Proof.
  destruct t as [|c t]; [|reflexivity]. intros H. vm_compute in H. discriminate H.
Qed.

(** X9: a keyword [k] with no surrounding whitespace, added through
    [KeywordService.add_keyword] (valid lengths, keyword not yet present),
    is found for every message whose [strip()] is [k]: the service answers
    the reply with its written "\n" turned into newlines, and the
    auto-reply handler, in a private chat or a group whose switch is on,
    yields that reply and stops the event when the message is neither an
    @/wake command nor a system notification, and yields nothing and lets
    the event go on when it is one of them. *)
Theorem keyword_add_then_auto_reply d k r m st g is_at_or_wake_command is_system_notification :
  Database.kw_down d = false ->
  existsb (fun x => String.eqb (Database.keyword x) k) (Database.kws d) = false ->
  Service.validate_input_length k 100 = true ->
  Service.validate_input_length r 1000 = true ->
  PyText.strip k = k -> PyText.strip m = k ->
  (Py.truthy g = false \/ Database.is_group_enabled st g = true) ->
  snd (Services.add_keyword d k r) = true /\
  Services.find_keyword_reply (fst (Services.add_keyword d k r)) m =
    Some (Services.unescape_newlines r) /\
  Events.handle_auto_reply (fst (Services.add_keyword d k r)) st
    is_at_or_wake_command is_system_notification m g =
    (if is_at_or_wake_command || is_system_notification then ([], false)
     else ([ActSend [Plain (Services.unescape_newlines r)]], true)).
Proof.
  intros Hd Hn Hk Hr Hsk Hsm Hg.
  assert (Hadd : Services.add_keyword d k r =
    (Database.mk_kw_db (Database.kws d ++ [Database.mk_kw (Database.kw_next d) k
                                             (Services.unescape_newlines r)])
                       (Database.kw_next d + 1) false, true)).
  { unfold Services.add_keyword, Database.add_keyword. rewrite Hk, Hr, Hd, Hn. reflexivity. }
  assert (Hfind : forall m', PyText.strip m' = k ->
    Services.find_keyword_reply (fst (Services.add_keyword d k r)) m' =
    Some (Services.unescape_newlines r)).
  { intros m' Hm'. rewrite Hadd. unfold Services.find_keyword_reply, Database.find_keyword_reply.
    simpl. rewrite Hm', ?Hsk, find_app, (existsb_find_none _ _ Hn). simpl.
    rewrite String.eqb_refl. reflexivity. }
  split; [rewrite Hadd; reflexivity|split; [exact (Hfind m Hsm)|]].
  assert (Hkt : Py.truthy k = true).
  { apply validate_truthy in Hk. exact Hk. }
  assert (Hmt : Py.truthy m = true).
  { destruct m; [|reflexivity]. rewrite <- Hsm in Hkt. exact Hkt. }
  unfold Events.handle_auto_reply.
  destruct (is_at_or_wake_command || is_system_notification); [reflexivity|].
  simpl. rewrite Hmt, Hsm, Hkt. simpl.
  assert (Hgate : Py.truthy g && negb (Database.is_group_enabled st g) = false).
  { destruct Hg as [H|H]; rewrite H; [reflexivity|apply andb_false_r]. }
  rewrite Hgate, Hfind by exact Hsk.
  rewrite unescape_truthy by exact (validate_truthy r 1000 Hr). reflexivity.
Qed.

Lemma keyword_add_then_auto_reply_witness :
  Events.handle_auto_reply
    (fst (Services.add_keyword (Database.mk_kw_db [] 1 false) "早安" "早上好"))
    (Database.mk_settings [] false) false false "　早安 " "111" =
  ([ActSend [Plain "早上好"]], true) /\
  Events.handle_auto_reply
    (fst (Services.add_keyword (Database.mk_kw_db [] 1 false) "早安" "早上好"))
    (Database.mk_settings [] false) true false "　早安 " "111" = ([], false).
Proof.
  split.
  - apply (keyword_add_then_auto_reply (Database.mk_kw_db [] 1 false) "早安" "早上好" "　早安 "
             (Database.mk_settings [] false) "111" false false); try vm_compute; try reflexivity.
    right. reflexivity.
  - apply (keyword_add_then_auto_reply (Database.mk_kw_db [] 1 false) "早安" "早上好" "　早安 "
             (Database.mk_settings [] false) "111" true false); try vm_compute; try reflexivity.
    right. reflexivity.
Defined.

(** X10: a keyword that begins with whitespace is never matched: whatever
    [KeywordService.add_keyword] does with it, [find_keyword_reply] then
    answers every message exactly as before. *)
Theorem keyword_with_leading_space_unreachable d k r m :
  (exists e, In e PyText.ws_encodings /\
             PyText.list_prefix e (list_ascii_of_string k) = true) ->
  Services.find_keyword_reply (fst (Services.add_keyword d k r)) m =
  Services.find_keyword_reply d m.
Proof.
  intros [e [He Hp]]. unfold Services.add_keyword.
  destruct (negb _); [reflexivity|]. destruct (negb _); [reflexivity|].
  unfold Database.add_keyword. destruct (Database.kw_down d) eqn:Hd; [reflexivity|].
  destruct (existsb _ _); [reflexivity|].
  unfold Services.find_keyword_reply, Database.find_keyword_reply. simpl. rewrite Hd.
  rewrite find_app. destruct (find _ (Database.kws d)); [reflexivity|]. simpl.
  destruct (String.eqb k _) eqn:E; [|reflexivity].
  apply String.eqb_eq in E. rewrite E in Hp.
  rewrite strip_no_leading_space in Hp by exact He. discriminate.
Qed.

Lemma keyword_with_leading_space_unreachable_witness :
  Services.find_keyword_reply (fst (Services.add_keyword (Database.mk_kw_db [] 1 false) " hi" "x"))
    " hi" = None.
Proof.
  rewrite (keyword_with_leading_space_unreachable (Database.mk_kw_db [] 1 false) " hi" "x" " hi").
  - reflexivity.
  - exists [" "%char]. split; [simpl; tauto|reflexivity].
Defined.

(** Deleting the id of the [n]-th row removes exactly that row when ids are
    distinct. *)
Lemma filter_id_nth (l : list Database.kw) n x :
  NoDup (map Database.kw_id l) -> nth_error l n = Some x ->
  filter (fun y => negb (Z.eqb (Database.kw_id y) (Database.kw_id x))) l =
  (firstn n l ++ skipn (S n) l)%list.
Proof.
  revert n. induction l as [|a l IH]; intros n Hnd Hn; [destruct n; discriminate|].
  simpl in Hnd. apply NoDup_cons_iff in Hnd as [Hna Hnd].
  destruct n as [|n]; simpl in Hn |- *.
  - injection Hn as <-. rewrite Z.eqb_refl. simpl.
    apply forallb_filter_id. apply forallb_forall.
    intros y Hy. apply negb_true_iff, Z.eqb_neq. intros Heq. apply Hna.
    rewrite <- Heq. apply in_map. exact Hy.
  - assert (Hne : Database.kw_id a <> Database.kw_id x).
    { intros Heq. apply Hna. rewrite Heq. apply in_map. exact (nth_error_In _ _ Hn). }
    rewrite (proj2 (Z.eqb_neq _ _) Hne). simpl. f_equal. exact (IH n Hnd Hn).
Qed.

(** X11: [KeywordService.delete_keyword index] with an index outside
    [1 .. number of keywords] (or an empty or failing table) deletes nothing
    and fails; inside it removes exactly the index-th keyword of the
    listing, given the distinct AUTOINCREMENT ids. *)
Theorem delete_keyword_by_index d index :
  NoDup (map Database.kw_id (Database.kws d)) ->
  let n := length (Database.get_all_keywords d) in
  (((index <? 1) || (Z.of_nat n <? index)) = true ->
     Services.delete_keyword d index = (d, false)) /\
  ((1 <= index <= Z.of_nat n) ->
     snd (Services.delete_keyword d index) = true /\
     Database.kws (fst (Services.delete_keyword d index)) =
       (firstn (Z.to_nat (index - 1)) (Database.kws d) ++
        skipn (S (Z.to_nat (index - 1))) (Database.kws d))%list).
Proof.
  intros Hnd n. unfold Services.delete_keyword. fold n. split.
  - intros H. destruct (Database.get_all_keywords d); [reflexivity|]. rewrite H. reflexivity.
  - intros Hi. unfold n in *. unfold Database.get_all_keywords in *.
    destruct (Database.kw_down d) eqn:Hd; [simpl in Hi; lia|].
    destruct (Database.kws d) as [|k0 ks] eqn:Hks; [simpl in Hi; lia|].
    rewrite <- Hks in *.
    rewrite (proj2 (Z.ltb_ge index 1)), (proj2 (Z.ltb_ge _ index)) by lia. simpl.
    destruct (nth_error (Database.kws d) (Z.to_nat (index - 1))) as [x|] eqn:Hx.
    + unfold Database.delete_keyword. rewrite Hd. simpl. split.
      * apply existsb_exists. exists x. split; [exact (nth_error_In _ _ Hx)|apply Z.eqb_refl].
      * exact (filter_id_nth _ _ _ Hnd Hx).
    + apply nth_error_None in Hx. lia.
Qed.

Lemma delete_keyword_by_index_witness :
  Database.kws (fst (Services.delete_keyword
    (Database.mk_kw_db [Database.mk_kw 1 "a" "x"; Database.mk_kw 3 "b" "y"] 4 false) 2))
  = [Database.mk_kw 1 "a" "x"].
Proof.
  apply (proj2 (delete_keyword_by_index
    (Database.mk_kw_db [Database.mk_kw 1 "a" "x"; Database.mk_kw 3 "b" "y"] 4 false) 2
    ltac:(simpl; repeat constructor; simpl; lia))).
  simpl. lia.
Defined.

(** ** [BlacklistService] *)

Lemma rows_for_match d u g r :
  In r (Store.rows_for d u g) -> Store.user_id r = u /\ Store.group_id r = g.
Proof.
  unfold Store.rows_for. intros H. apply filter_In in H as [_ H].
  exact (remove_hit_match u g r H).
Qed.

Lemma not_listed_no_global d u g :
  Store.down d = false -> Store.is_in_blacklist d u g = false ->
  existsb (Store.global_match u) (Store.rows d) = false.
Proof.
  unfold Store.is_in_blacklist. intros Hd. rewrite Hd.
  destruct (existsb _ _); [discriminate|reflexivity].
Qed.

Lemma not_listed_no_group d u g :
  Store.down d = false -> Py.truthy g = true -> Store.is_in_blacklist d u (Some g) = false ->
  existsb (Store.group_match u g) (Store.rows d) = false.
Proof.
  unfold Store.is_in_blacklist. intros Hd Hg. rewrite Hd, Hg.
  destruct (existsb _ _); [discriminate|exact (fun H => H)].
Qed.

Lemma unique_clash_none r u : Store.unique_clash r u None = false.
Proof. unfold Store.unique_clash. destruct (Store.group_id r); apply andb_false_r. Qed.

(** The rows of [(u', g')] after the insert of the service. *)
Lemma service_add_rows_for d u by_ g rsn u' g' :
  (length (Store.rows_for d u' g') <= 1)%nat ->
  (length (Store.rows_for (fst (Service.add_user_to_blacklist d u by_ g rsn)) u' g') <= 1)%nat.
Proof.
  intros H. unfold Service.add_user_to_blacklist.
  destruct (negb (Py.isdigit u)); [exact H|].
  destruct (negb (Service.validate_input_length rsn 200)); [exact H|].
  destruct (Store.is_in_blacklist d u g) eqn:Hin; [exact H|].
  unfold Store.add_to_blacklist. destruct (Store.down d) eqn:Hd; [exact H|].
  unfold Store.rows_for in *. simpl. rewrite filter_app, length_app. simpl.
  destruct (String.eqb u u' && Store.opt_eqb g g') eqn:E; simpl.
  - apply andb_prop in E as [E1 E2]. apply String.eqb_eq in E1. apply opt_eqb_true in E2.
    subst u' g'. destruct g as [g0|].
    + rewrite filter_pair_after_clash_removal. simpl. lia.
    + rewrite (filter_ext (fun x => negb (Store.unique_clash x u None)) (fun _ => true))
        by (intros x; rewrite unique_clash_none; reflexivity).
      rewrite filter_true.
      assert (H0 : existsb (fun r => String.eqb (Store.user_id r) u &&
                                     Store.opt_eqb (Store.group_id r) None) (Store.rows d) = false)
        by exact (not_listed_no_global d u None Hd Hin).
      rewrite (filter_none_false _ _ H0). simpl. lia.
  - pose proof (length_filter_filter_le
      (fun r => String.eqb (Store.user_id r) u' && Store.opt_eqb (Store.group_id r) g')
      (fun x => negb (Store.unique_clash x u g)) (Store.rows d)). lia.
Qed.

(** X12: through [BlacklistService], each pair (user, group) and each pair
    (user, global) keeps at most one row: [add_user_to_blacklist] and
    [remove_user_from_blacklist] preserve that invariant. *)
Theorem blacklist_service_one_row_per_pair d u by_ g rsn :
  (forall u' g', (length (Store.rows_for d u' g') <= 1)%nat) ->
  (forall u' g',
     (length (Store.rows_for (fst (Service.add_user_to_blacklist d u by_ g rsn)) u' g') <= 1)%nat) /\
  (forall u' g',
     (length (Store.rows_for (fst (Services.remove_user_from_blacklist d u g)) u' g') <= 1)%nat).
Proof.
  intros H. split.
  - intros u' g'. apply service_add_rows_for. apply H.
  - intros u' g'. unfold Services.remove_user_from_blacklist.
    destruct (negb _); [apply H|]. destruct (negb _); [apply H|].
    unfold Database.remove_from_blacklist. destruct (Store.down d); [apply H|].
    unfold Store.rows_for in *. simpl.
    pose proof (length_filter_filter_le
      (fun r => String.eqb (Store.user_id r) u' && Store.opt_eqb (Store.group_id r) g')
      (fun r => negb (String.eqb (Store.user_id r) u && Store.opt_eqb (Store.group_id r) g))
      (Store.rows d)).
    specialize (H u' g'). lia.
Qed.

Lemma blacklist_service_one_row_per_pair_witness :
  (length (Store.rows_for (fst (Service.add_user_to_blacklist Sample.empty_db "999" "10001" None "spam"))
             "999" None) <= 1)%nat.
Proof.
  apply (proj1 (blacklist_service_one_row_per_pair Sample.empty_db "999" "10001" None "spam"
                  ltac:(intros; simpl; lia))).
Defined.

(** X13: a user with a global row cannot be added to a group's blacklist
    through the service: the call fails and the store is unchanged. *)
Theorem service_add_group_refused_when_global d u by_ g rsn :
  Store.is_in_blacklist d u None = true ->
  Service.add_user_to_blacklist d u by_ (Some g) rsn = (d, false).
Proof.
  intros H. unfold Service.add_user_to_blacklist. rewrite (global_listed_covers d u g H).
  destruct (negb _); [reflexivity|]. destruct (negb _); reflexivity.
Qed.

Lemma service_add_group_refused_when_global_witness :
  Service.add_user_to_blacklist Sample.both_db "999" "10001" (Some "222") "x" = (Sample.both_db, false).
Proof. apply service_add_group_refused_when_global. reflexivity. Defined.

(** X14: removing a user from a group's blacklist when the user is only
    blacklisted globally fails: no row is deleted and the user stays
    blacklisted for the group. *)
Theorem service_remove_group_of_global_only d u g :
  Store.is_in_blacklist d u None = true ->
  Store.rows_for d u (Some g) = [] ->
  Services.remove_user_from_blacklist d u (Some g) = (d, false) /\
  Store.is_in_blacklist d u (Some g) = true.
Proof.
  intros Hglob Hrows. pose proof (global_listed_covers d u g Hglob) as Hin.
  split; [|exact Hin].
  unfold Services.remove_user_from_blacklist.
  destruct (Py.isdigit u); [|reflexivity]. rewrite Hin. simpl.
  unfold Database.remove_from_blacklist.
  destruct (Store.down d) eqn:Hd; [reflexivity|].
  unfold Store.rows_for in Hrows.
  assert (He : existsb (fun r => String.eqb (Store.user_id r) u &&
                                 Store.opt_eqb (Store.group_id r) (Some g)) (Store.rows d) = false).
  { apply not_true_iff_false. intros E. apply existsb_exists in E as [r [Hr Hm]].
    assert (Hr' : In r []) by (rewrite <- Hrows; apply filter_In; auto). destruct Hr'. }
  rewrite He, (filter_negb_none _ _ He).
  destruct d as [rs ws ni cl dn]. simpl in Hd. subst dn. reflexivity.
Qed.

Lemma service_remove_group_of_global_only_witness :
  Services.remove_user_from_blacklist Sample.both_db "999" (Some "222") = (Sample.both_db, false).
Proof. apply (service_remove_group_of_global_only Sample.both_db "999" "222"); reflexivity. Defined.



(** ** Group events *)

Lemma service_add_group_effect d u by_ g rsn :
  Py.truthy g = true ->
  fst (Service.add_user_to_blacklist d u by_ (Some g) rsn) = d \/
  exists r,
    Store.rows (fst (Service.add_user_to_blacklist d u by_ (Some g) rsn)) =
      (Store.rows d ++ [r])%list /\
    Store.user_id r = u /\ Store.group_id r = Some g /\ Store.added_by r = by_ /\
    Store.welcomes (fst (Service.add_user_to_blacklist d u by_ (Some g) rsn)) = Store.welcomes d.
Proof.
  intros Hg. unfold Service.add_user_to_blacklist.
  destruct (negb (Py.isdigit u)); [left; reflexivity|].
  destruct (negb (Service.validate_input_length rsn 200)); [left; reflexivity|].
  destruct (Store.is_in_blacklist d u (Some g)) eqn:Hin; [left; reflexivity|].
  unfold Store.add_to_blacklist. destruct (Store.down d) eqn:Hd; [left; reflexivity|].
  right. exists (Store.mk_row (Store.next_id d) u (Some g) rsn by_ (Store.clock d) (Store.clock d)).
  simpl. split; [|repeat split].
  rewrite (filter_no_clash u g _ (not_listed_no_group d u g Hd Hg Hin)). reflexivity.
Qed.

(** X25: [handle_group_events] changes the store only for a group_decrease
    event, and then only by appending one row: the departing user, scoped
    to the group, added by "system_auto"; the welcome texts are kept. *)
Theorem group_events_store_effect d ns now kick gid nt st uid :
  fst (fst (Events.handle_group_events d ns now kick gid (nt, st, uid))) = d \/
  (nt = Some "group_decrease" /\
   exists u r, uid = Some u /\
     Store.rows (fst (fst (Events.handle_group_events d ns now kick gid (nt, st, uid)))) =
       (Store.rows d ++ [r])%list /\
     Store.user_id r = u /\ Store.group_id r = Some gid /\
     Store.added_by r = "system_auto" /\
     Store.welcomes (fst (fst (Events.handle_group_events d ns now kick gid (nt, st, uid)))) =
       Store.welcomes d).
Proof.
  unfold Events.handle_group_events.
  destruct (Py.truthy gid) eqn:Hg; [|left; reflexivity]. simpl negb. cbv iota.
  destruct (Store.opt_eqb nt (Some "group_increase")) eqn:Hi.
  - simpl. destruct uid as [u|]; [|left; reflexivity].
    destruct (Py.truthy u); [|left; reflexivity]. simpl.
    destruct (handle_member_join d ns now kick gid u). left; reflexivity.
  - destruct (Store.opt_eqb nt (Some "group_decrease")) eqn:Hdec; [|left; reflexivity].
    apply opt_eqb_true in Hdec. simpl.
    destruct uid as [u|]; [|left; reflexivity].
    destruct (Py.truthy u); [|left; reflexivity]. simpl.
    match goal with |- context [handle_member_leave d ns now gid u ?s] => set (sub := s) end.
    unfold handle_member_leave.
    destruct (leave_reason sub) as [reason|]; [|left; reflexivity].
    destruct (Py.truthy reason); [|cbv zeta; destruct (should_send_notification _ _ _ _);
                                   left; reflexivity].
    destruct (negb (Service.is_user_blacklisted d u (Some gid))).
    2:{ cbv zeta. destruct (should_send_notification _ _ _ _). left; reflexivity. }
    destruct (service_add_group_effect d u "system_auto" gid reason Hg) as [Heq|(r & H1 & H2)];
      cbv zeta;
      destruct (Service.add_user_to_blacklist d u "system_auto" (Some gid) reason) as [d1 ok];
      destruct (should_send_notification _ _ _ _); simpl in *.
    + left. exact Heq.
    + right. split; [exact Hdec|]. exists u, r. split; [reflexivity|]. split; [exact H1|exact H2].
Qed.

(** X17: a group_decrease event whose sub_type is missing or empty is handled
    as the departure type "unknown": for a numeric user not yet blacklisted
    and a working store, the user is blacklisted for the group with the
    reason "离开群聊(unknown)". *)
Theorem group_decrease_without_sub_type d ns now kick gid u st :
  Py.truthy gid = true -> Py.truthy u = true -> (st = None \/ st = Some "") ->
  Events.handle_group_events d ns now kick gid (Some "group_decrease", st, Some u) =
    handle_member_leave d ns now gid u "unknown" /\
  (Store.down d = false -> Py.isdigit u = true -> Store.is_in_blacklist d u (Some gid) = false ->
   exists r,
     Store.get_user_blacklist_info
       (fst (fst (Events.handle_group_events d ns now kick gid (Some "group_decrease", st, Some u))))
       u (Some gid) = Some r /\
     Store.reason r = "离开群聊(unknown)" /\ Store.added_by r = "system_auto").
Proof.
  intros Hg Hu Hst.
  assert (Hdisp : Events.handle_group_events d ns now kick gid (Some "group_decrease", st, Some u) =
                  handle_member_leave d ns now gid u "unknown").
  { unfold Events.handle_group_events. rewrite Hg, Hu. simpl.
    destruct Hst as [-> | ->]; reflexivity. }
  split; [exact Hdisp|]. intros Hd Hdig Hin. rewrite Hdisp.
  assert (Hr : leave_reason "unknown" = Some "离开群聊(unknown)") by reflexivity.
  assert (Ht : Py.truthy "离开群聊(unknown)" = true) by reflexivity.
  assert (Hadd : Service.add_user_to_blacklist d u "system_auto" (Some gid) "离开群聊(unknown)" =
                 Store.add_to_blacklist d u "system_auto" (Some gid) "离开群聊(unknown)").
  { unfold Service.add_user_to_blacklist. rewrite Hdig, Hin. reflexivity. }
  unfold handle_member_leave. rewrite Hr. cbv zeta. rewrite Ht.
  unfold Service.is_user_blacklisted. rewrite Hin. simpl negb. cbv iota.
  rewrite Hadd.
  destruct (should_send_notification _ _ _ _) as [ok ns'].
  unfold Store.add_to_blacklist. rewrite Hd. simpl.
  exists (Store.mk_row (Store.next_id d) u (Some gid) "离开群聊(unknown)" "system_auto"
                      (Store.clock d) (Store.clock d)).
  split; [|split; reflexivity].
  unfold Store.get_user_blacklist_info. simpl. rewrite Hg, find_app.
  rewrite (existsb_find_none _ _).
  - simpl. unfold Store.group_match. simpl. rewrite !String.eqb_refl. reflexivity.
  - apply not_true_iff_false. intros E. apply existsb_exists in E as [r [Hr0 Hm]].
    apply filter_In in Hr0 as [_ Hn]. rewrite unique_clash_some, Hm in Hn. discriminate.
Qed.

Lemma group_decrease_without_sub_type_witness :
  exists r,
    Store.get_user_blacklist_info
      (fst (fst (Events.handle_group_events Sample.empty_db [] 5000 Sample.no_kick "111"
                   (Some "group_decrease", None, Some "999")))) "999" (Some "111") = Some r /\
    Store.reason r = "离开群聊(unknown)" /\ Store.added_by r = "system_auto".
Proof.
  apply (proj2 (group_decrease_without_sub_type Sample.empty_db [] 5000 Sample.no_kick "111" "999"
                  None eq_refl eq_refl (or_introl eq_refl))); reflexivity.
Defined.

(** X18: once a group has a welcome text [w] (non-empty), a user who is not
    blacklisted and joins that group gets exactly one message, the chain
    built from [w]; nobody is kicked and the cooldown table is unchanged. *)
Theorem welcome_set_then_join d g w ns now kick u :
  Store.down d = false -> Py.truthy u = true -> Py.truthy w = true ->
  Store.is_in_blacklist d u (Some g) = false ->
  handle_member_join (fst (Database.set_welcome_message d g w)) ns now kick g u =
    ([ActSend (build_welcome_chain w u g)], ns).
Proof.
  intros Hd Hu Hw Hin.
  pose proof (set_welcome_message_self d g w Hd) as Hget.
  assert (Hin' : Store.is_in_blacklist (fst (Database.set_welcome_message d g w)) u (Some g) = false).
  { unfold Database.set_welcome_message. rewrite Hd.
    unfold Store.is_in_blacklist in *. rewrite Hd in Hin. exact Hin. }
  unfold handle_member_join. rewrite Hu. simpl negb. cbv iota.
  unfold Service.is_user_blacklisted. rewrite Hin', Hget, Hw. reflexivity.
Qed.

Lemma welcome_set_then_join_witness :
  handle_member_join (fst (Database.set_welcome_message Sample.empty_db "111" "hi {user}"))
    [] 5000 Sample.no_kick "111" "999" =
  ([ActSend (build_welcome_chain "hi {user}" "999" "111")], []).
Proof. apply welcome_set_then_join; reflexivity. Defined.

(** X19: once [set_group_enabled g False] has succeeded, the auto-reply
    handler never answers in group [g], whatever the message and keywords. *)
Theorem auto_reply_silent_when_disabled kwd st g b1 b2 m :
  Database.s_down st = false -> Py.truthy g = true ->
  Events.handle_auto_reply kwd (fst (Database.set_group_enabled st g false)) b1 b2 m g = ([], false).
Proof.
  intros Hd Hg. unfold Events.handle_auto_reply.
  rewrite (set_group_enabled_get st g false Hd), Hg. simpl.
  destruct (b1 || b2); [reflexivity|].
  destruct (negb _ || negb _); reflexivity.
Qed.

Lemma auto_reply_silent_when_disabled_witness :
  Events.handle_auto_reply (Database.mk_kw_db [Database.mk_kw 1 "hi" "hello"] 2 false)
    (fst (Database.set_group_enabled (Database.mk_settings [] false) "111" false))
    false false "hi" "111" = ([], false).
Proof. apply auto_reply_silent_when_disabled; reflexivity. Defined.

(** ** Notification throttle *)

(** X20: notification keys are independent: a call of
    [should_send_notification] for one key never changes the last emission
    time of another key, so a notification in one group does not hold back
    one in another. *)
Theorem notification_keys_independent cd st now k k' :
  k' <> k ->
  last_time (snd (should_send_notification cd st now k)) k' = last_time st k' /\
  should_send_notification cd (snd (should_send_notification cd st now k)) now k' =
    (let (ok, st') := should_send_notification cd st now k' in
     (ok, if ok then set_time (snd (should_send_notification cd st now k)) k' now
          else snd (should_send_notification cd st now k))).
Proof.
  intros Hne.
  assert (Hl : last_time (snd (should_send_notification cd st now k)) k' = last_time st k').
  { unfold should_send_notification. destruct (_ >=? _); [|reflexivity]. simpl.
    unfold last_time, set_time. simpl.
    rewrite (proj2 (String.eqb_neq k k')) by congruence.
    rewrite find_key_filter_other by exact Hne. reflexivity. }
  split; [exact Hl|]. unfold should_send_notification at 1 3. rewrite Hl.
  destruct (now - last_time st k' >=? cd); reflexivity.
Qed.

Lemma notification_keys_independent_witness :
  last_time (snd (should_send_notification cooldown [] 5000 "blacklist_join_111"))
    "blacklist_join_222" = 0.
Proof.
  apply (proj1 (notification_keys_independent cooldown [] 5000 "blacklist_join_111"
                  "blacklist_join_222" ltac:(discriminate))).
Defined.

(** ** Permission checks *)

Lemma cache_find_after_resolve c k v now :
  Perm.cache_find (Perm.cleanup_expired_cache (Perm.cache_set c k v now) now) k = Some (v, now).
Proof.
  unfold Perm.cache_find, Perm.cleanup_expired_cache, Perm.cache_set. simpl.
  rewrite Z.sub_diag. simpl. rewrite String.eqb_refl. reflexivity.
Qed.

(** The cache has no entry younger than the TTL for key [k] at [now]. *)
Lemma no_fresh_entry c k now :
  (forall v ts, Perm.cache_find c k = Some (v, ts) -> now - ts >= Perm.cache_ttl) ->
  match Perm.cache_find c k with
  | Some (v, ts) => if now - ts <? Perm.cache_ttl then Some v else None
  | None => None
  end = None.
Proof.
  intros H. destruct (Perm.cache_find c k) as [[v ts]|] eqn:E; [|reflexivity].
  specialize (H v ts eq_refl). rewrite (proj2 (Z.ltb_ge _ _)) by lia. reflexivity.
Qed.

(** X21: once [_is_group_admin_async] has resolved a (group, user) pair at
    time [now] (no fresh cache entry before), every later call for the same
    pair before [now + 300], with any event from the same sender, returns
    the same answer from the cache, leaves the cache as it is, and does not
    depend on the live API's answer. *)
Theorem admin_cache_reuse_within_ttl c ev ev' g now api now' api' :
  Perm.sender_id ev' = Perm.sender_id ev ->
  (forall v ts, Perm.cache_find c (g ++ "_" ++ Perm.sender_id ev) = Some (v, ts) ->
                now - ts >= Perm.cache_ttl) ->
  now' - now < Perm.cache_ttl ->
  Perm.is_group_admin_async (snd (Perm.is_group_admin_async c ev g now api)) ev' g now' api' =
  Perm.is_group_admin_async c ev g now api.
Proof.
  intros Hid Hc Hnow.
  destruct (Py.truthy (Perm.sender_id ev)) eqn:Ht.
  2:{ unfold Perm.is_group_admin_async. rewrite Hid, Ht. reflexivity. }
  assert (Hre : forall v,
    Perm.is_group_admin_async
      (Perm.cleanup_expired_cache (Perm.cache_set c (g ++ "_" ++ Perm.sender_id ev) v now) now)
      ev' g now' api' =
    (v, Perm.cleanup_expired_cache (Perm.cache_set c (g ++ "_" ++ Perm.sender_id ev) v now) now)).
  { intros v. unfold Perm.is_group_admin_async. rewrite Hid, Ht. cbv zeta. simpl negb. cbv iota.
    rewrite cache_find_after_resolve, (proj2 (Z.ltb_lt _ _) Hnow). reflexivity. }
  unfold Perm.is_group_admin_async at 2 3. rewrite Ht. cbv zeta. simpl negb. cbv iota.
  rewrite (no_fresh_entry _ _ _ Hc).
  destruct (Perm.live_lookup ev api) as [[|]|]; simpl; apply Hre.
Qed.

Lemma admin_cache_reuse_within_ttl_witness :
  Perm.is_group_admin_async (snd (Perm.is_group_admin_async [] Sample.owner_meta_event "111" 5000
                                    (Perm.ApiRole (Some "member"))))
    (Perm.mk_event "222" (Some "other") false false None) "111" 5100
    (Perm.ApiRole (Some "owner")) =
  Perm.is_group_admin_async [] Sample.owner_meta_event "111" 5000 (Perm.ApiRole (Some "member")).
Proof.
  apply admin_cache_reuse_within_ttl; [reflexivity|intros v ts H; discriminate|reflexivity].
Defined.

(** X22: whatever the synchronous check [check_permission] (default level)
    admits, the asynchronous [check_admin_permission_async] admits as well
    when the cache has no fresh entry for the pair, whatever the live API
    answers. *)
Theorem sync_admin_implies_async_admin c me now api :
  Permissions.check_permission me None = true ->
  (forall g v ts, Permissions.group me = Some g ->
     Perm.cache_find c (g ++ "_" ++ Perm.sender_id (Permissions.base me)) = Some (v, ts) ->
     now - ts >= Perm.cache_ttl) ->
  fst (Permissions.check_admin_permission_async c me now api) = true.
Proof.
  unfold Permissions.check_permission, Permissions.get_user_permission_level,
    Permissions.check_admin_permission_async.
  destruct (String.eqb (Permissions.role me) "admin"); [reflexivity|].
  unfold Permissions.group_truthy.
  destruct (Permissions.group me) as [g|] eqn:Hg; [|discriminate].
  destruct (Py.truthy g) eqn:Hgt; [|discriminate]. simpl.
  destruct (Permissions.is_group_admin (Permissions.base me)) eqn:Hadm; [|discriminate].
  intros _ Hc. specialize (Hc g). unfold Permissions.is_group_admin in Hadm.
  unfold Perm.is_group_admin_async.
  destruct (Py.truthy (Perm.sender_id (Permissions.base me))); [|discriminate]. simpl in Hadm |- *.
  rewrite (no_fresh_entry _ _ _ (fun v ts => Hc v ts eq_refl)).
  destruct (Perm.live_lookup _ api) as [[|]|]; simpl; [reflexivity|exact Hadm|exact Hadm].
Qed.

Lemma sync_admin_implies_async_admin_witness :
  fst (Permissions.check_admin_permission_async []
         (Permissions.mk_msg_event Sample.owner_meta_event "member" (Some "111")) 5000
         Perm.ApiRaises) = true.
Proof.
  apply sync_admin_implies_async_admin; [reflexivity|intros g v ts _ H; discriminate].
Defined.

(** ** Request retries (continued) *)




(** ** [OneBotConfig] *)

Lemma drop_char_head c l :
  match PyText.drop_char c l with x :: _ => x <> c | [] => True end.
Proof.
  induction l as [|x l IH]; simpl; [exact I|].
  destruct (Ascii.eqb x c) eqn:E; [exact IH|].
  intros Heq. subst. rewrite Ascii.eqb_refl in E. discriminate.
Qed.

Lemma list_ascii_of_string_append s t :
  list_ascii_of_string (s ++ t) = (list_ascii_of_string s ++ list_ascii_of_string t)%list.
Proof. induction s as [|c s IH]; simpl; [reflexivity|]. rewrite IH. reflexivity. Qed.

Lemma rstrip_slash_no_trailing u0 p : PyText.rstrip_char "/"%char u0 <> p ++ "/".
Proof.
  intros Hp. unfold PyText.rstrip_char in Hp.
  pose proof (drop_char_head "/"%char (rev (list_ascii_of_string u0))) as Hh.
  revert Hp Hh. generalize (PyText.drop_char "/"%char (rev (list_ascii_of_string u0))).
  intros x Hp Hh.
  apply (f_equal list_ascii_of_string) in Hp.
  rewrite list_ascii_of_string_of_list_ascii, list_ascii_of_string_append in Hp.
  simpl in Hp. apply (f_equal (@rev ascii)) in Hp.
  rewrite rev_involutive, rev_app_distr in Hp. simpl in Hp.
  rewrite Hp in Hh. apply Hh. reflexivity.
Qed.

(** X24: [OneBotConfig.__post_init__] raises [ValueError] exactly for an empty
    [base_url], and the normalised [base_url] never ends with "/". *)
Theorem post_init_normalises s :
  (Config.post_init s = None <-> s = "") /\
  (forall url, Config.post_init s = Some url -> forall p, url <> p ++ "/").
Proof.
  split.
  - unfold Config.post_init. destruct s; simpl; split; congruence.
  - intros url. unfold Config.post_init. destruct (negb (Py.truthy s)); [discriminate|].
    intros [= <-] p. apply rstrip_slash_no_trailing.
Qed.

Lemma post_init_normalises_witness :
  Config.post_init "127.0.0.1:5700//" = Some "http://127.0.0.1:5700" /\
  forall p, "http://127.0.0.1:5700" <> p ++ "/".
Proof.
  split; [reflexivity|].
  apply (proj2 (post_init_normalises "127.0.0.1:5700//")). reflexivity.
Defined.
